(** * ORT curation report generator ([ort_curation_script.py])

    A shallow embedding of the script: the values a YAML document loads to,
    the Python builtins the script applies to them, the three pure methods
    of [ORTCurationReportGenerator] ([extract_key_info],
    [determine_analysis_status], [generate_curation_prompt]) and the
    effectful ones ([generate_report], [save_report], the [__main__] block)
    as programs that record the events they cause.

    Conventions.  A Python [str] is a [string]; each [ascii] stands for the
    code point of the same number.  Integers are [Z].  A [dict] is an
    association list in insertion order.  Scalars of other YAML types
    (floats, timestamps, binary) are outside the model.  Standard output
    stays open; what it cannot encode makes [print] raise. *)

From Stdlib Require Import List String Ascii ZArith Bool DecimalString.
Import ListNotations.
Local Open Scope list_scope.
Local Open Scope string_scope.

(** ** Python values

    What [yaml.safe_load] returns.  The keys of a mapping are values as
    well; the script only ever asks for string keys. *)

Local Set Warnings "-register-all".

Inductive pyval : Type :=
| PNone
| PBool (b : bool)
| PInt (n : Z)
| PStr (s : string)
| PList (l : list pyval)
| PDict (d : list (pyval * pyval)).

(** ** Exceptions and the error monad

    The exceptions the script can meet, each with the text [str(e)] gives.
    All of them are instances of [Exception]; [LibraryError] stands for
    what [open], the YAML loader and the service client raise.  Interrupts
    from outside the process are not modelled. *)

Inductive pyexn : Type :=
| AttributeError (msg : string)
| TypeError (msg : string)
| IndexError (msg : string)
| UnicodeEncodeError (msg : string)
| LibraryError (msg : string).

(** [str(e)] *)
Definition exn_message (e : pyexn) : string :=
  match e with
  | AttributeError m | TypeError m | IndexError m | UnicodeEncodeError m
  | LibraryError m => m
  end.

Definition res (A : Type) : Type := (pyexn + A)%type.

Definition ret {A} (a : A) : res A := inr a.
Definition raise {A} (e : pyexn) : res A := inl e.

Definition bind {A B} (m : res A) (f : A -> res B) : res B :=
  match m with
  | inl e => inl e
  | inr a => f a
  end.

Declare Scope py_scope.
Delimit Scope py_scope with py.
Notation "x <- m ;; k" := (bind m (fun x => k))
  (at level 61, m at next level, right associativity) : py_scope.
Local Open Scope py_scope.

(** ** Characters *)

Definition dq : string := String (ascii_of_nat 34) EmptyString.
Definition nl : string := String (ascii_of_nat 10) EmptyString.
Definition quote_char : ascii := ascii_of_nat 39.
Definition dquote_char : ascii := ascii_of_nat 34.
Definition backslash_char : ascii := ascii_of_nat 92.

(** ** Builtins *)

Definition type_name (v : pyval) : string :=
  match v with
  | PNone => "NoneType"
  | PBool _ => "bool"
  | PInt _ => "int"
  | PStr _ => "str"
  | PList _ => "list"
  | PDict _ => "dict"
  end.

(** [bool(v)] *)
Definition truthy (v : pyval) : bool :=
  match v with
  | PNone => false
  | PBool b => b
  | PInt n => negb (Z.eqb n 0)
  | PStr s => negb (String.eqb s EmptyString)
  | PList l => match l with [] => false | _ => true end
  | PDict d => match d with [] => false | _ => true end
  end.

(** [len(v)] *)
Definition py_len (v : pyval) : res nat :=
  match v with
  | PStr s => ret (String.length s)
  | PList l => ret (List.length l)
  | PDict d => ret (List.length d)
  | _ => raise (TypeError ("object of type '" ++ type_name v ++ "' has no len()"))
  end.

Definition key_is (k : string) (e : pyval * pyval) : bool :=
  match fst e with
  | PStr s => String.eqb s k
  | _ => false
  end.

(** [d[k]] for a string key, when present *)
Definition dict_lookup (k : string) (d : list (pyval * pyval)) : option pyval :=
  option_map snd (find (key_is k) d).

Definition no_attribute (v : pyval) (attr : string) : pyexn :=
  AttributeError ("'" ++ type_name v ++ "' object has no attribute '" ++ attr ++ "'").

(** [v.get(k, default)] *)
Definition py_get (v : pyval) (k : string) (default : pyval) : res pyval :=
  match v with
  | PDict d =>
      match dict_lookup k d with
      | Some x => ret x
      | None => ret default
      end
  | _ => raise (no_attribute v "get")
  end.

(** [v.items()] *)
Definition py_items (v : pyval) : res (list (pyval * pyval)) :=
  match v with
  | PDict d => ret d
  | _ => raise (no_attribute v "items")
  end.

Fixpoint chars (s : string) : list pyval :=
  match s with
  | EmptyString => []
  | String c s' => PStr (String c EmptyString) :: chars s'
  end.

(** the elements [for x in v] visits *)
Definition py_iter (v : pyval) : res (list pyval) :=
  match v with
  | PList l => ret l
  | PStr s => ret (chars s)
  | PDict d => ret (map fst d)
  | _ => raise (TypeError ("'" ++ type_name v ++ "' object is not iterable"))
  end.

(** [v[:n]]; a dict rejects the slice as a key (CPython before 3.12 words
    it as below) *)
Definition py_slice_to (n : nat) (v : pyval) : res pyval :=
  match v with
  | PStr s => ret (PStr (substring 0 n s))
  | PList l => ret (PList (firstn n l))
  | PDict _ => raise (TypeError "unhashable type: 'slice'")
  | _ => raise (TypeError ("'" ++ type_name v ++ "' object is not subscriptable"))
  end.

(** *** [str] and [repr] *)

Definition str_of_Z (n : Z) : string := NilZero.string_of_int (Z.to_int n).
Definition str_of_nat (n : nat) : string := str_of_Z (Z.of_nat n).

Definition hex_digit (n : nat) : ascii :=
  if Nat.ltb n 10 then ascii_of_nat (48 + n) else ascii_of_nat (87 + n).

(** [str.isprintable] on one character of the Latin-1 range *)
Definition printable (c : ascii) : bool :=
  let n := nat_of_ascii c in
  (Nat.leb 32 n && Nat.leb n 126) || (Nat.leb 161 n && negb (Nat.eqb n 173)).

Fixpoint contains (c : ascii) (s : string) : bool :=
  match s with
  | EmptyString => false
  | String c' s' => Ascii.eqb c c' || contains c s'
  end.

Definition escape_char (q c : ascii) : string :=
  let n := nat_of_ascii c in
  if Ascii.eqb c q || Ascii.eqb c backslash_char then
    String backslash_char (String c EmptyString)
  else if Nat.eqb n 9 then String backslash_char "t"
  else if Nat.eqb n 10 then String backslash_char "n"
  else if Nat.eqb n 13 then String backslash_char "r"
  else if printable c then String c EmptyString
  else String backslash_char
         (String "x" (String (hex_digit (n / 16)) (String (hex_digit (n mod 16)) EmptyString))).

Fixpoint escape (q : ascii) (s : string) : string :=
  match s with
  | EmptyString => EmptyString
  | String c s' => escape_char q c ++ escape q s'
  end.

(** [repr(s)] for a [str]: single quotes unless the text has a single quote
    and no double quote *)
Definition repr_str (s : string) : string :=
  let q := if contains quote_char s && negb (contains dquote_char s)
           then dquote_char else quote_char in
  String q (escape q s ++ String q EmptyString).

Fixpoint join (sep : string) (l : list string) : string :=
  match l with
  | [] => EmptyString
  | [x] => x
  | x :: rest => x ++ sep ++ join sep rest
  end.

Fixpoint py_repr (v : pyval) : string :=
  match v with
  | PNone => "None"
  | PBool true => "True"
  | PBool false => "False"
  | PInt n => str_of_Z n
  | PStr s => repr_str s
  | PList l => "[" ++ join ", " (map py_repr l) ++ "]"
  | PDict d =>
      "{" ++ join ", " (map (fun kv => let '(k, x) := kv in
                                       py_repr k ++ ": " ++ py_repr x) d) ++ "}"
  end.

(** [str(v)], which is also what an f-string field without a format
    specification inserts *)
Definition py_str (v : pyval) : string :=
  match v with
  | PStr s => s
  | _ => py_repr v
  end.

(** ** The extracted record

    [extract_key_info] returns a dict with a fixed set of keys; it is a
    record here, and [key_info['k']] is the projection [k]. *)

Record scan_times : Type := { start : pyval; end_ : pyval }.

Record key_info : Type := {
  repository_url : pyval;
  revision : pyval;
  ort_version : pyval;
  scan_time : scan_times;
  projects : pyval;
  packages : pyval;
  issues : pyval;
  package_managers : pyval
}.

Definition empty_dict : pyval := PDict [].
Definition empty_list : pyval := PList [].
Definition NA : pyval := PStr "N/A".
Definition Unknown : pyval := PStr "Unknown".

Definition extract_key_info (ort_data : pyval) : res key_info :=
  analyzer <- py_get ort_data "analyzer" empty_dict;;
  result <- py_get analyzer "result" empty_dict;;
  repository <- py_get ort_data "repository" empty_dict;;
  vcs <- py_get repository "vcs_processed" empty_dict;;
  url <- py_get vcs "url" NA;;
  vcs' <- py_get repository "vcs_processed" empty_dict;;
  rev <- py_get vcs' "revision" NA;;
  environment <- py_get analyzer "environment" empty_dict;;
  version <- py_get environment "ort_version" NA;;
  start_time <- py_get analyzer "start_time" NA;;
  end_time <- py_get analyzer "end_time" NA;;
  projs <- py_get result "projects" empty_list;;
  pkgs <- py_get result "packages" empty_list;;
  iss <- py_get result "issues" empty_dict;;
  config <- py_get analyzer "config" empty_dict;;
  managers <- py_get config "enabled_package_managers" empty_list;;
  ret {| repository_url := url;
         revision := rev;
         ort_version := version;
         scan_time := {| start := start_time; end_ := end_time |};
         projects := projs;
         packages := pkgs;
         issues := iss;
         package_managers := managers |}.

(** [v and len(v) > 0] used as a condition: [len] is only reached for a
    truthy [v] *)
Definition truthy_and_nonempty (v : pyval) : res bool :=
  if truthy v then (n <- py_len v;; ret (Nat.ltb 0 n)) else ret false.

Definition determine_analysis_status (ort_data : pyval) : res string :=
  analyzer <- py_get ort_data "analyzer" empty_dict;;
  result <- py_get analyzer "result" empty_dict;;
  issues <- py_get result "issues" empty_dict;;
  analyzer' <- py_get ort_data "analyzer" empty_dict;;
  result' <- py_get analyzer' "result" empty_dict;;
  packages <- py_get result' "packages" empty_list;;
  has_issues <- truthy_and_nonempty issues;;
  if has_issues then ret "ERROR"
  else
    has_packages <- truthy_and_nonempty packages;;
    if has_packages then ret "SUCCESS" else ret "INCOMPLETE".

(** ** The prompt *)

(** every line followed by a newline, as inside a triple-quoted literal *)
Fixpoint unlines (l : list string) : string :=
  match l with
  | [] => EmptyString
  | x :: rest => x ++ nl ++ unlines rest
  end.

Definition prompt_header (ki : key_info) (status : string) : res string :=
  n_projects <- py_len (projects ki);;
  n_packages <- py_len (packages ki);;
  n_issues <- py_len (issues ki);;
  ret (unlines
    [ "You are an expert software compliance analyst reviewing ORT (OSS Review Toolkit) analysis results.";
      EmptyString;
      "**Analysis Status**: " ++ status;
      EmptyString;
      "**Repository Information**:";
      "- Repository: " ++ py_str (repository_url ki);
      "- Revision: " ++ py_str (revision ki);
      "- ORT Version: " ++ py_str (ort_version ki);
      EmptyString;
      "**Scan Details**:";
      "- Start Time: " ++ py_str (start (scan_time ki));
      "- End Time: " ++ py_str (end_ (scan_time ki));
      EmptyString;
      "**Projects Analyzed**: " ++ str_of_nat n_projects;
      "**Packages Detected**: " ++ str_of_nat n_packages;
      "**Issues Found**: " ++ str_of_nat n_issues;
      EmptyString ]).

(** the text appended under [status == "SUCCESS"], line by line *)
Definition success_task_lines : list string :=
  [ "**Your Task**: Generate a comprehensive curation report in PROPER MARKDOWN FORMAT.";
    EmptyString;
    "CRITICAL FORMATTING RULES:";
    "- Use proper heading hierarchy: # for main title, ## for sections, ### for subsections";
    "- Add blank lines before and after each heading";
    "- Add blank lines before and after lists";
    "- Use proper markdown list syntax with consistent indentation";
    "- Add blank lines between paragraphs";
    "- Use markdown tables where appropriate";
    "- Use code blocks with ``` for technical content";
    "- Ensure all markdown syntax is properly formatted";
    EmptyString;
    "**Report Structure** (use this exact structure):";
    EmptyString;
    "## Executive Summary";
    "[Provide a clear, concise overview]";
    EmptyString;
    "## License Analysis";
    EmptyString;
    "### License Distribution";
    "[Create a markdown table showing license types and counts]";
    EmptyString;
    "### License Categories";
    "[Categorize licenses as Permissive, Copyleft, Proprietary, etc.]";
    EmptyString;
    "### License Compliance Concerns";
    "[List any concerns with proper formatting]";
    EmptyString;
    "## Package Inventory";
    EmptyString;
    "### Package Summary";
    "[Provide statistics]";
    EmptyString;
    "### Detailed Package List";
    "[Create a well-formatted table or list with: Package Name, Version, License, Source]";
    EmptyString;
    "## Risk Assessment";
    EmptyString;
    "### High Priority Issues";
    "[List critical items]";
    EmptyString;
    "### Medium Priority Issues";
    "[List moderate concerns]";
    EmptyString;
    "### Low Priority Issues";
    "[List minor notes]";
    EmptyString;
    "## Recommendations";
    EmptyString;
    "### Immediate Actions Required";
    "[Numbered list of actions]";
    EmptyString;
    "### Best Practices";
    "[Bullet list of recommendations]";
    EmptyString;
    "### Long-term Considerations";
    "[Strategic recommendations]";
    EmptyString;
    "## Summary";
    EmptyString;
    "**CRITICAL: Provide a clear, actionable final verdict in this section.**";
    EmptyString;
    "This section must include:";
    "1. **Overall Project Status**: Clearly state whether the project is " ++ dq ++ "READY TO PROCEED" ++ dq ++ ", " ++ dq ++ "NEEDS ATTENTION" ++ dq ++ ", or " ++ dq ++ "BLOCKED" ++ dq ++ " for production use";
    "2. **Key Findings**: Summarize the most important points in 2-3 sentences";
    "3. **Compliance Posture**: Assess the overall health of the dependency ecosystem (healthy/moderate concerns/significant risks)";
    "4. **Go/No-Go Recommendation**: Explicitly state if the project can proceed or what must be fixed first";
    EmptyString;
    "Example format:";
    dq ++ "The dependency ecosystem is [healthy/concerning/problematic], with [X] packages using predominantly [permissive/copyleft/mixed] licenses. [No immediate compliance risks identified / Critical issues must be addressed before deployment]. The project is [READY TO PROCEED / REQUIRES REMEDIATION / BLOCKED]." ++ dq;
    EmptyString;
    "## Appendix";
    EmptyString;
    "### Package Details";
    "[Additional technical information]";
    EmptyString;
    "**Package Information**:" ].

(** the text appended in the [else] branch, line by line *)
Definition error_task_lines : list string :=
  [ "**Your Task**: Generate an error analysis report in PROPER MARKDOWN FORMAT.";
    EmptyString;
    "CRITICAL FORMATTING RULES:";
    "- Use proper heading hierarchy: # for main title, ## for sections, ### for subsections";
    "- Add blank lines before and after each heading";
    "- Add blank lines before and after lists";
    "- Use proper markdown list syntax with consistent indentation";
    "- Add blank lines between paragraphs";
    "- Use code blocks with ``` for error messages";
    "- Ensure all markdown syntax is properly formatted";
    EmptyString;
    "**Report Structure** (use this exact structure):";
    EmptyString;
    "## Error Summary";
    "[Brief overview of what went wrong]";
    EmptyString;
    "## Root Cause Analysis";
    EmptyString;
    "### Primary Error";
    "[Main error explanation]";
    EmptyString;
    "### Contributing Factors";
    "[List factors that led to the error]";
    EmptyString;
    "## Detailed Error Information";
    EmptyString;
    "### Error Messages";
    "[Use code blocks for error messages]";
    EmptyString;
    "### Affected Components";
    "[List what couldn't be analyzed]";
    EmptyString;
    "## Impact Assessment";
    EmptyString;
    "### Compliance Risks";
    "[Explain risks from incomplete analysis]";
    EmptyString;
    "### Missing Data";
    "[What information is unavailable]";
    EmptyString;
    "## Troubleshooting Guide";
    EmptyString;
    "### Immediate Fixes";
    "1. [Step-by-step numbered list]";
    EmptyString;
    "### Configuration Changes";
    "[Detailed recommendations]";
    EmptyString;
    "### Alternative Approaches";
    "[Backup strategies]";
    EmptyString;
    "## Resolution Steps";
    EmptyString;
    "### Prerequisites";
    "[What needs to be in place]";
    EmptyString;
    "### Step-by-Step Resolution";
    "1. [Detailed numbered steps]";
    EmptyString;
    "### Verification";
    "[How to confirm the fix worked]";
    EmptyString;
    "## Next Steps";
    EmptyString;
    "### Immediate Actions";
    "- [Prioritized bullet list]";
    EmptyString;
    "### Follow-up Tasks";
    "- [Additional items]";
    EmptyString;
    "### Escalation Criteria";
    "[When to escalate]";
    EmptyString;
    "**Error Details**:" ].

Definition success_task : string := nl ++ unlines success_task_lines.
Definition error_task : string := nl ++ unlines error_task_lines.

Definition reminder : string :=
  nl ++ nl ++ "REMEMBER: Strictly follow proper markdown formatting with blank lines, proper heading hierarchy, and consistent indentation. The output must be valid, well-formatted markdown.".

Arguments success_task : simpl never.
Arguments error_task : simpl never.
Arguments reminder : simpl never.

(** a [for] loop whose body extends the prompt and may raise *)
Fixpoint for_each {A} (body : A -> string -> res string) (l : list A)
    (prompt : string) : res string :=
  match l with
  | [] => ret prompt
  | x :: rest => prompt' <- body x prompt;; for_each body rest prompt'
  end.

(** body of [for pkg in key_info['packages'][:10]] *)
Definition add_package (pkg : pyval) (prompt : string) : res string :=
  id <- py_get pkg "id" Unknown;;
  let prompt := prompt ++ nl ++ "- " ++ py_str id in
  licenses <- py_get pkg "declared_licenses" (PList [Unknown]);;
  let prompt := prompt ++ nl ++ "  License: " ++ py_str licenses in
  homepage <- py_get pkg "homepage_url" NA;;
  ret (prompt ++ nl ++ "  Homepage: " ++ py_str homepage).

(** body of [for issue in issues] *)
Definition add_issue (issue : pyval) (prompt : string) : res string :=
  severity <- py_get issue "severity" Unknown;;
  let prompt := prompt ++ nl ++ "- Severity: " ++ py_str severity in
  source <- py_get issue "source" Unknown;;
  let prompt := prompt ++ nl ++ "- Source: " ++ py_str source in
  message <- py_get issue "message" Unknown;;
  shown <- py_slice_to 500 message;;
  ret (prompt ++ nl ++ "- Message: " ++ py_str shown ++ "...").

(** body of [for project_id, issues in key_info['issues'].items()] *)
Definition add_project (item : pyval * pyval) (prompt : string) : res string :=
  let '(project_id, issues) := item in
  let prompt := prompt ++ nl ++ nl ++ "Project: " ++ py_str project_id in
  each <- py_iter issues;;
  for_each add_issue each prompt.

Definition generate_curation_prompt (ki : key_info) (status : string) : res string :=
  prompt <- prompt_header ki status;;
  prompt <-
    (if String.eqb status "SUCCESS" then
       let prompt := prompt ++ success_task in
       first <- py_slice_to 10 (packages ki);;
       pkgs <- py_iter first;;
       for_each add_package pkgs prompt
     else
       let prompt := prompt ++ error_task in
       items <- py_items (issues ki);;
       for_each add_project items prompt);;
  ret (prompt ++ reminder).

(** ** Effects

    What the script does to the outside is recorded as a list of events, in
    order.  What the outside answers is a [world]: the environment
    variables, the clock, and the outcome of each library call.  Sampling
    parameters of the completion request are fixed constants of the script
    and are not recorded.  [Print text] is a text that [print] has written;
    the newline it adds is not part of [text]. *)

Inductive event : Type :=
| Print (text : string)
| NewClient (api_version azure_endpoint : string) (api_key : pyval)
| LoadYaml (file_path : string)
| ChatCompletion (model system user : string)
| WriteFile (output_path content : string).

Record world : Type := {
  (** [os.environ.get] *)
  environ : string -> option string;
  (** [datetime.now().strftime(fmt)] at the n-th reading of the clock *)
  strftime_now : nat -> string -> string;
  (** the [AzureOpenAI] constructor: the exception it raises, if any *)
  AzureOpenAI : string -> string -> pyval -> option pyexn;
  (** [open] followed by [yaml.safe_load] *)
  safe_load : string -> res pyval;
  (** [client.chat.completions.create]: the [message.content] of each of
      the response's choices *)
  chat_completions_create : string -> string -> string -> res (list pyval);
  (** [open(path, 'w')] followed by [f.write] *)
  write_text : string -> string -> res unit;
  (** the encoding of standard output: the message of the error it raises
      on a text it cannot encode, if it cannot *)
  stdout_rejects : string -> option string
}.

Definition io (A : Type) : Type := (list event * res A)%type.

Definition io_ret {A} (a : A) : io A := ([], inr a).

Definition io_bind {A B} (m : io A) (f : A -> io B) : io B :=
  match m with
  | (t, inl e) => (t, inl e)
  | (t, inr a) => let '(t', r) := f a in ((t ++ t')%list, r)
  end.

(** a pure step *)
Definition lift {A} (r : res A) : io A := ([], r).

(** a step that is seen from outside *)
Definition perform {A} (e : event) (r : res A) : io A := ([e], r).

Fixpoint ascii_only (s : string) : bool :=
  match s with
  | EmptyString => true
  | String c s' => Nat.ltb (nat_of_ascii c) 128 && ascii_only s'
  end.

(** [print(text)].  Text of ASCII characters is always written; any other
    text is written unless the encoding of standard output rejects it, in
    which case the call raises and has written nothing. *)
Definition print (w : world) (text : string) : io unit :=
  if ascii_only text then perform (Print text) (ret tt)
  else
    match stdout_rejects w text with
    | Some msg => lift (raise (UnicodeEncodeError msg))
    | None => perform (Print text) (ret tt)
    end.

Declare Scope io_scope.
Delimit Scope io_scope with io.
Notation "x <- m ;; k" := (io_bind m (fun x => k))
  (at level 61, m at next level, right associativity) : io_scope.
Notation "m ;;; k" := (io_bind m (fun _ => k))
  (at level 61, right associativity) : io_scope.

Record azure_config : Type := {
  endpoint : string;
  api_key : pyval;
  api_version : string;
  deployment_name : string
}.

(** the state of a generator object; its client handle is the world *)
Record generator : Type := { self_deployment_name : string }.

Local Open Scope io_scope.

(** [ORTCurationReportGenerator.__init__] *)
Definition __init__ (w : world) (config : azure_config) : io generator :=
  perform (NewClient (api_version config) (endpoint config) (api_key config))
    (match AzureOpenAI w (api_version config) (endpoint config) (api_key config) with
     | Some e => raise e
     | None => ret tt
     end);;;
  io_ret {| self_deployment_name := deployment_name config |}.

Definition load_ort_results (w : world) (file_path : string) : io pyval :=
  perform (LoadYaml file_path) (safe_load w file_path).

Definition system_message : string :=
  "You are an expert software compliance analyst specializing in open-source license compliance and dependency analysis. You always produce well-formatted, valid markdown with proper heading hierarchy, blank lines, and consistent formatting.".

(** [choices[0]] *)
Definition first_choice (choices : list pyval) : res pyval :=
  match choices with
  | c :: _ => ret c
  | [] => raise (IndexError "list index out of range")
  end.

(** [s + v] for a [str] on the left *)
Definition str_concat (s : string) (v : pyval) : res string :=
  match v with
  | PStr t => ret (s ++ t)
  | _ => raise (TypeError ("can only concatenate str (not " ++ dq ++ type_name v
                           ++ dq ++ ") to str"))
  end.

(** the metadata header of a report *)
Definition metadata_header (generated status : string) (url : pyval)
    (revision8 : pyval) : string :=
  unlines
    [ "# ORT Analysis Curation Report";
      EmptyString;
      "**Generated:** " ++ generated ++ "  ";
      "**Status:** " ++ status ++ "  ";
      "**Repository:** " ++ py_str url ++ "  ";
      "**Revision:** " ++ py_str revision8 ++ "...";
      EmptyString;
      "---";
      EmptyString ].

Definition generate_report (w : world) (self : generator) (file_path : string)
    : io string :=
  ort_data <- load_ort_results w file_path;;
  key_info <- lift (extract_key_info ort_data);;
  status <- lift (determine_analysis_status ort_data);;
  prompt <- lift (generate_curation_prompt key_info status);;
  choices <- perform (ChatCompletion (self_deployment_name self) system_message prompt)
               (chat_completions_create w (self_deployment_name self)
                  system_message prompt);;
  report <- lift (first_choice choices);;
  let generated := strftime_now w 1 "%Y-%m-%d %H:%M:%S" in
  revision8 <- lift (py_slice_to 8 (revision key_info));;
  let metadata := metadata_header generated status (repository_url key_info) revision8 in
  lift (str_concat metadata report).

Definition save_report (w : world) (report output_path : string) : io unit :=
  perform (WriteFile output_path report) (write_text w output_path report);;;
  print w ("Report saved to: " ++ output_path).

Fixpoint str_times (s : string) (n : nat) : string :=
  match n with
  | O => EmptyString
  | S n' => s ++ str_times s n'
  end.

Definition input_file : string := "ort-results/analyzer/analyzer-result.yml".

Definition output_file (w : world) : string :=
  "curation-report-" ++ strftime_now w 0 "%Y%m%d-%H%M%S" ++ ".md".

(** the body of the [try] statement *)
Definition try_body (w : world) (g : generator) : io unit :=
  report <- generate_report w g input_file;;
  save_report w report (output_file w);;;
  print w (nl ++ "Report Preview:");;;
  print w (str_times "=" 80);;;
  print w (substring 0 1000 report ++ "..." ++ nl);;;
  print w (str_times "=" 80);;;
  print w (nl ++ "Successfully generated: " ++ output_file w).

Definition environ_value (o : option string) : pyval :=
  match o with
  | Some s => PStr s
  | None => PNone
  end.

Definition main_config (w : world) : azure_config :=
  {| endpoint :=
       match environ w "AZURE_OPENAI_ENDPOINT" with
       | Some e => e
       | None => "https://ltts-cariad-ddd-mvp-ai-foundry.cognitiveservices.azure.com"
       end;
     api_key := environ_value (environ w "AZURE_OPENAI_API_KEY");
     api_version := "2025-01-01-preview";
     deployment_name := "gpt-4.1-mini" |}.

(** The [__main__] block: the events of the run and the exit status of the
    process.  [exit(1)] ends the run with status 1; an exception nobody
    catches, be it raised by the constructor or by a [print] outside the
    [try] body, ends it with status 1 as well; running off the end gives
    0. *)
Definition main (w : world) : list event * Z :=
  let config := main_config w in
  if negb (truthy (api_key config)) then
    (fst (print w "ERROR: AZURE_OPENAI_API_KEY environment variable not set!";;;
          print w "Please set it in your GitHub Secrets."), 1%Z)
  else
    match __init__ w config with
    | (t, inl _) => (t, 1%Z)
    | (t, inr g) =>
        match try_body w g with
        | (t', inr _) => ((t ++ t')%list, 0%Z)
        | (t', inl e) =>
            ((t ++ t'
                ++ fst (print w ("Error generating report: " ++ exn_message e)))%list,
             1%Z)
        end
    end.

Local Close Scope io_scope.

(** ** Vocabulary for the statements

    [doc_field path doc] is what a document holds at a path of keys: a
    value, nothing (some key of the path is missing from its mapping), or
    no answer because the path runs into a value that is not a mapping. *)

Inductive field : Type :=
| Absent
| Present (v : pyval)
| Blocked (at_value : pyval).

Fixpoint doc_field (path : list string) (doc : pyval) : field :=
  match path with
  | [] => Present doc
  | k :: rest =>
      match doc with
      | PDict d =>
          match dict_lookup k d with
          | Some v => doc_field rest v
          | None => Absent
          end
      | _ => Blocked doc
      end
  end.

Definition field_or (default : pyval) (f : field) : pyval :=
  match f with
  | Present v => v
  | _ => default
  end.

Definition reachable (path : list string) (doc : pyval) : Prop :=
  match doc_field path doc with
  | Blocked _ => False
  | _ => True
  end.

Definition issues_path : list string := ["analyzer"; "result"; "issues"].
Definition packages_path : list string := ["analyzer"; "result"; "packages"].

(** a list or a mapping with at least one entry *)
Definition nonempty_collection (v : pyval) : bool :=
  match v with
  | PList (_ :: _) | PDict (_ :: _) => true
  | _ => false
  end.

(** a list or a mapping without entries *)
Definition empty_collection (v : pyval) : bool :=
  match v with
  | PList [] | PDict [] => true
  | _ => false
  end.

(** a field that is missing, or holds an empty collection *)
Definition empty_or_absent (f : field) : Prop :=
  match f with
  | Absent => True
  | Present v => empty_collection v = true
  | Blocked _ => False
  end.

(** the value the script reads at a key of a mapping's entries *)
Definition entry_or (default : pyval) (k : string) (d : list (pyval * pyval)) : pyval :=
  match dict_lookup k d with
  | Some v => v
  | None => default
  end.

(** the paths the method reads *)
Definition extracted_paths : list (list string) :=
  [ ["repository"; "vcs_processed"; "url"];
    ["repository"; "vcs_processed"; "revision"];
    ["analyzer"; "environment"; "ort_version"];
    ["analyzer"; "start_time"];
    ["analyzer"; "end_time"];
    ["analyzer"; "result"; "projects"];
    ["analyzer"; "result"; "packages"];
    ["analyzer"; "result"; "issues"];
    ["analyzer"; "config"; "enabled_package_managers"] ].

(** a document in which none of these paths runs into a value that is not
    a mapping; any of them may be missing *)
Definition well_shaped (doc : pyval) : Prop :=
  Forall (fun path => reachable path doc) extracted_paths.

(** what [v.get(k, {})] gives when it gives something *)
Definition sub (k : string) (v : pyval) : pyval :=
  match py_get v k empty_dict with
  | inr x => x
  | inl _ => empty_dict
  end.

(** what [extract_key_info] returns for a document without any of the
    fields it reads *)
Definition default_key_info : key_info :=
  {| repository_url := PStr "N/A";
     revision := PStr "N/A";
     ort_version := PStr "N/A";
     scan_time := {| start := PStr "N/A"; end_ := PStr "N/A" |};
     projects := PList [];
     packages := PList [];
     issues := PDict [];
     package_managers := PList [] |}.





Definition is_mapping (v : pyval) : bool :=
  match v with
  | PDict _ => true
  | _ => false
  end.


(** values [v[:n]] accepts *)
Definition sliceable (v : pyval) : bool :=
  match v with
  | PStr _ | PList _ => true
  | _ => false
  end.




Definition set_packages (ki : key_info) (v : pyval) : key_info :=
  {| repository_url := repository_url ki;
     revision := revision ki;
     ort_version := ort_version ki;
     scan_time := scan_time ki;
     projects := projects ki;
     packages := v;
     issues := issues ki;
     package_managers := package_managers ki |}.


(** the events that reach the text-generation service: building its client
    and sending it a request *)
Definition contacts_service (ev : event) : bool :=
  match ev with
  | NewClient _ _ _ | ChatCompletion _ _ _ => true
  | _ => false
  end.

Definition missing_key_output : list event :=
  [ Print "ERROR: AZURE_OPENAI_API_KEY environment variable not set!";
    Print "Please set it in your GitHub Secrets." ].

(** what a run prints once the report has been written *)
Definition success_output (w : world) (report : string) : list event :=
  [ Print ("Report saved to: " ++ output_file w);
    Print (nl ++ "Report Preview:");
    Print (str_times "=" 80);
    Print (substring 0 1000 report ++ "..." ++ nl);
    Print (str_times "=" 80);
    Print (nl ++ "Successfully generated: " ++ output_file w) ].

(** ** The stages of [generate_report]

    The pure steps between its effects, named for the statements. *)

(** the pure steps of [generate_report] between loading and the request *)
Definition prepare (ort_data : pyval) : res (key_info * string * string) :=
  key_info <- extract_key_info ort_data;;
  status <- determine_analysis_status ort_data;;
  prompt <- generate_curation_prompt key_info status;;
  ret (key_info, status, prompt).

(** the pure steps of [generate_report] after the response *)
Definition assemble (w : world) (ki : key_info) (status : string)
    (choices : list pyval) : res string :=
  report <- first_choice choices;;
  revision8 <- py_slice_to 8 (revision ki);;
  str_concat
    (metadata_header (strftime_now w 1 "%Y-%m-%d %H:%M:%S") status
       (repository_url ki) revision8)
    report.

Definition request (g : generator) (prompt : string) : event :=
  ChatCompletion (self_deployment_name g) system_message prompt.

(** ** Sample documents and worlds *)

Definition doc_with_result (result : list (pyval * pyval)) : pyval :=
  PDict [(PStr "analyzer", PDict [(PStr "result", PDict result)])].

Definition sample_issue : pyval :=
  PDict [(PStr "severity", PStr "ERROR"); (PStr "source", PStr "NPM");
         (PStr "message", PStr "Resolution failed")].

Definition sample_issues : pyval :=
  PDict [(PStr "NPM::package.json", PList [sample_issue])].

Definition sample_package : pyval :=
  PDict [(PStr "id", PStr "NPM::left-pad:1.3.0");
         (PStr "declared_licenses", PList [PStr "WTFPL"])].




Definition sample_doc : pyval :=
  PDict [ (PStr "repository",
           PDict [(PStr "vcs_processed",
                   PDict [(PStr "url", PStr "https://example.org/app.git");
                          (PStr "revision", PStr "0123456789abcdef0123456789abcdef")])]);
          (PStr "analyzer",
           PDict [(PStr "result", PDict [(PStr "packages", PList [sample_package])])]) ].

Definition sample_world (key : option string) (loaded : res pyval) : world :=
  {| environ := fun k => if String.eqb k "AZURE_OPENAI_API_KEY" then key else None;
     strftime_now := fun n _ =>
       if Nat.eqb n 0 then "20240101-120000" else "2024-01-01 12:00:05";
     AzureOpenAI := fun _ _ _ => None;
     safe_load := fun _ => loaded;
     chat_completions_create := fun _ _ _ => ret [PStr "## Executive Summary"];
     write_text := fun _ _ => ret tt;
     stdout_rejects := fun _ => None |}.

Definition sample_generator : generator := {| self_deployment_name := "gpt-4.1-mini" |}.

(** ** Further vocabulary *)

(** the conditional of [determine_analysis_status], on the two values it
    has read *)
Definition classify (issues packages : pyval) : res string :=
  has_issues <- truthy_and_nonempty issues;;
  if has_issues then ret "ERROR"
  else
    has_packages <- truthy_and_nonempty packages;;
    if has_packages then ret "SUCCESS" else ret "INCOMPLETE".

Definition is_new_client (ev : event) : bool :=
  match ev with
  | NewClient _ _ _ => true
  | _ => false
  end.

Definition is_load (ev : event) : bool :=
  match ev with
  | LoadYaml _ => true
  | _ => false
  end.

Definition is_request (ev : event) : bool :=
  match ev with
  | ChatCompletion _ _ _ => true
  | _ => false
  end.

Definition is_write (ev : event) : bool :=
  match ev with
  | WriteFile _ _ => true
  | _ => false
  end.

(** whether [print] writes a text *)
Definition stdout_accepts (w : world) (text : string) : bool :=
  ascii_only text
  || match stdout_rejects w text with
     | None => true
     | Some _ => false
     end.

(** the texts printed after the report has been written, in order *)
Definition closing_texts (w : world) (report : string) : list string :=
  [ "Report saved to: " ++ output_file w;
    nl ++ "Report Preview:";
    str_times "=" 80;
    substring 0 1000 report ++ "..." ++ nl;
    str_times "=" 80;
    nl ++ "Successfully generated: " ++ output_file w ].

(** printing texts one after the other, up to the first that raises *)
Fixpoint print_lines (w : world) (texts : list string) : io unit :=
  match texts with
  | [] => io_ret tt
  | text :: rest =>
      match rest with
      | [] => print w text
      | _ :: _ => io_bind (print w text) (fun _ => print_lines w rest)
      end
  end.

Definition is_print (ev : event) : bool :=
  match ev with
  | Print _ => true
  | _ => false
  end.



Definition set_projects (ki : key_info) (v : pyval) : key_info :=
  {| repository_url := repository_url ki;
     revision := revision ki;
     ort_version := ort_version ki;
     scan_time := scan_time ki;
     projects := v;
     packages := packages ki;
     issues := issues ki;
     package_managers := package_managers ki |}.

Definition set_issues (ki : key_info) (v : pyval) : key_info :=
  {| repository_url := repository_url ki;
     revision := revision ki;
     ort_version := ort_version ki;
     scan_time := scan_time ki;
     projects := projects ki;
     packages := packages ki;
     issues := v;
     package_managers := package_managers ki |}.

Definition set_package_managers (ki : key_info) (v : pyval) : key_info :=
  {| repository_url := repository_url ki;
     revision := revision ki;
     ort_version := ort_version ki;
     scan_time := scan_time ki;
     projects := projects ki;
     packages := packages ki;
     issues := issues ki;
     package_managers := v |}.





(** ** Further samples *)

Definition world_with (key : option string) (client : option pyexn)
    (loaded : res pyval) (response : res (list pyval)) (written : res unit) : world :=
  {| environ := fun k => if String.eqb k "AZURE_OPENAI_API_KEY" then key else None;
     strftime_now := fun n _ =>
       if Nat.eqb n 0 then "20240101-120000" else "2024-01-01 12:00:05";
     AzureOpenAI := fun _ _ _ => client;
     safe_load := fun _ => loaded;
     chat_completions_create := fun _ _ _ => response;
     write_text := fun _ _ => written;
     stdout_rejects := fun _ => None |}.

(** a letter outside ASCII *)
Definition e_acute : string := String (ascii_of_nat 233) EmptyString.

(** a world whose standard output encodes ASCII only, and whose service
    answers with a text that has an accented letter *)
Definition ascii_stdout_world (loaded : res pyval) : world :=
  {| environ := fun k => if String.eqb k "AZURE_OPENAI_API_KEY" then Some "secret" else None;
     strftime_now := fun n _ =>
       if Nat.eqb n 0 then "20240101-120000" else "2024-01-01 12:00:05";
     AzureOpenAI := fun _ _ _ => None;
     safe_load := fun _ => loaded;
     chat_completions_create := fun _ _ _ => ret [PStr ("## R" ++ e_acute ++ "sum" ++ e_acute)];
     write_text := fun _ _ => ret tt;
     stdout_rejects := fun _ => Some "'ascii' codec can't encode character" |}.

(** a document whose revision is written without quotes and loads as a
    number *)
Definition numeric_revision_doc : pyval :=
  PDict [ (PStr "repository",
           PDict [(PStr "vcs_processed",
                   PDict [(PStr "url", PStr "https://example.org/app.git");
                          (PStr "revision", PInt 20240101)])]);
          (PStr "analyzer",
           PDict [(PStr "result", PDict [(PStr "packages", PList [sample_package])])]) ].


(** * Properties *)

(** ** The builtins on examples *)

Example py_str_default_licenses :
  py_str (PList [PStr "Unknown"]) = "['Unknown']".
Proof. reflexivity. Qed.

Example py_str_mixed :
  py_str (PDict [(PStr "a", PInt (-12)); (PStr "it's", PList [PNone; PBool true])])
  = "{'a': -12, " ++ dq ++ "it's" ++ dq ++ ": [None, True]}".
Proof. reflexivity. Qed.

Example repr_escapes :
  py_repr (PStr ("a" ++ nl ++ "b\")) = "'a\nb\\'".
Proof. reflexivity. Qed.

Example py_len_int :
  py_len (PInt 5) = raise (TypeError "object of type 'int' has no len()").
Proof. reflexivity. Qed.

(** ** The error monad *)

Lemma bind_ret_l {A B} (a : A) (f : A -> res B) : bind (ret a) f = f a.
Proof. reflexivity. Qed.

Lemma bind_inv {A B} (m : res A) (f : A -> res B) (b : B) :
  bind m f = ret b -> exists a, m = ret a /\ f a = ret b.
Proof.
  destruct m as [e | a]; simpl; intros H.
  - discriminate H.
  - exists a. split; [reflexivity | exact H].
Qed.

(** ** Field lookup *)

Lemma py_get_dict (d : list (pyval * pyval)) (k : string) (dflt : pyval) :
  py_get (PDict d) k dflt = ret (entry_or dflt k d).
Proof. unfold py_get, entry_or. destruct (dict_lookup k d); reflexivity. Qed.

Lemma reachable_dict (k : string) (rest : list string) (v : pyval) :
  reachable (k :: rest) v -> exists d, v = PDict d.
Proof.
  unfold reachable. destruct v; simpl; try contradiction.
  intros _. eexists. reflexivity.
Qed.

(** the last key of a path: the script's [.get(k, default)] returns the
    field, or the default when it is missing *)
Lemma py_get_leaf (k : string) (v dflt : pyval) :
  reachable [k] v -> py_get v k dflt = ret (field_or dflt (doc_field [k] v)).
Proof.
  intros R. destruct (reachable_dict _ _ _ R) as [d ->].
  rewrite py_get_dict. unfold entry_or. simpl.
  destruct (dict_lookup k d); reflexivity.
Qed.

(** an inner key of a path: [.get(k, {})] gives a value below which the
    rest of the path reads the same *)
Lemma sub_get (k : string) (rest : list string) (v : pyval) :
  reachable (k :: rest) v -> py_get v k empty_dict = ret (sub k v).
Proof.
  intros R. destruct (reachable_dict _ _ _ R) as [d ->].
  unfold sub. rewrite py_get_dict. reflexivity.
Qed.

Lemma sub_field (k k' : string) (rest : list string) (v dflt : pyval) :
  field_or dflt (doc_field (k :: k' :: rest) v)
  = field_or dflt (doc_field (k' :: rest) (sub k v)).
Proof.
  unfold sub. destruct v as [ | | | | | d]; try reflexivity.
  rewrite py_get_dict. unfold entry_or. simpl.
  destruct (dict_lookup k d); reflexivity.
Qed.

Lemma sub_reachable (k k' : string) (rest : list string) (v : pyval) :
  reachable (k :: k' :: rest) v -> reachable (k' :: rest) (sub k v).
Proof.
  intros R. destruct (reachable_dict _ _ _ R) as [d ->].
  unfold reachable, sub in *. rewrite py_get_dict. unfold entry_or.
  simpl in R |- *. destruct (dict_lookup k d); [exact R | trivial].
Qed.

Ltac reach := repeat apply sub_reachable; eassumption.

(** the three-key chains of the script, [d.get(k1, {}).get(k2, {}).get(k3, default)] *)
Lemma get_chain3 (k1 k2 k3 : string) (doc dflt : pyval) :
  reachable [k1; k2; k3] doc ->
  (a <- py_get doc k1 empty_dict;; b <- py_get a k2 empty_dict;; py_get b k3 dflt)
  = ret (field_or dflt (doc_field [k1; k2; k3] doc)).
Proof.
  intros R.
  rewrite (sub_get k1 _ doc R), bind_ret_l.
  rewrite (sub_get k2 [k3] (sub k1 doc)), bind_ret_l by reach.
  rewrite (py_get_leaf k3) by reach.
  rewrite !sub_field. reflexivity.
Qed.

Lemma chain3_bind {B} (k1 k2 k3 : string) (doc dflt : pyval) (K : pyval -> res B) :
  (a <- py_get doc k1 empty_dict;; b <- py_get a k2 empty_dict;;
   x <- py_get b k3 dflt;; K x)
  = bind (a <- py_get doc k1 empty_dict;; b <- py_get a k2 empty_dict;;
          py_get b k3 dflt) K.
Proof.
  destruct (py_get doc k1 empty_dict) as [e | a]; simpl; [reflexivity|].
  destruct (py_get a k2 empty_dict) as [e | b]; reflexivity.
Qed.

Lemma reachable_sibling (k1 k2 k3 k3' : string) (doc : pyval) :
  reachable [k1; k2; k3] doc -> reachable [k1; k2; k3'] doc.
Proof.
  unfold reachable. destruct doc as [ | | | | | d]; simpl; auto.
  destruct (dict_lookup k1 d) as [a|]; auto.
  destruct a as [ | | | | | da]; simpl; auto.
  destruct (dict_lookup k2 da) as [b|]; auto.
  destruct b as [ | | | | | db]; simpl; auto.
  intros _. destruct (dict_lookup k3' db); trivial.
Qed.

Lemma present_reachable (path : list string) (doc v : pyval) :
  doc_field path doc = Present v -> reachable path doc.
Proof. unfold reachable. intros ->. trivial. Qed.

Lemma empty_or_absent_reachable (path : list string) (doc : pyval) :
  empty_or_absent (doc_field path doc) -> reachable path doc.
Proof. unfold reachable. destruct (doc_field path doc); simpl; auto. Qed.

(** ** [determine_analysis_status] *)

(** the method reads the two fields and tests them in turn *)
Lemma determine_analysis_status_fields (doc : pyval) :
  reachable issues_path doc ->
  determine_analysis_status doc =
    (has_issues <- truthy_and_nonempty (field_or empty_dict (doc_field issues_path doc));;
     if has_issues then ret "ERROR"
     else
       has_packages <-
         truthy_and_nonempty (field_or empty_list (doc_field packages_path doc));;
       if has_packages then ret "SUCCESS" else ret "INCOMPLETE").
Proof.
  intros R. unfold determine_analysis_status, issues_path, packages_path.
  rewrite chain3_bind, (get_chain3 _ _ _ _ _ R), bind_ret_l.
  rewrite chain3_bind, (get_chain3 _ _ _ _ _ (reachable_sibling _ _ _ "packages" _ R)).
  reflexivity.
Qed.

Lemma nonempty_collection_test (v : pyval) :
  nonempty_collection v = true -> truthy_and_nonempty v = ret true.
Proof.
  destruct v as [ | | | | l | d]; simpl; try discriminate.
  - destruct l; [discriminate | reflexivity].
  - destruct d; [discriminate | reflexivity].
Qed.

Lemma empty_collection_test (v : pyval) :
  empty_collection v = true -> truthy_and_nonempty v = ret false.
Proof.
  destruct v as [ | | | | l | d]; simpl; try discriminate.
  - destruct l; [reflexivity | discriminate].
  - destruct d; [reflexivity | discriminate].
Qed.

Lemma empty_or_absent_test (dflt : pyval) (f : field) :
  empty_collection dflt = true -> empty_or_absent f ->
  truthy_and_nonempty (field_or dflt f) = ret false.
Proof.
  intros Hd. destruct f as [ | v | x]; simpl.
  - intros _. apply empty_collection_test, Hd.
  - apply empty_collection_test.
  - contradiction.
Qed.

(** C1: a document whose [analyzer.result.issues] is a non-empty collection
    is classified "ERROR", whatever the rest of the document, its packages
    included, holds. *)
Theorem determine_analysis_status_error (doc issues : pyval) :
  doc_field issues_path doc = Present issues ->
  nonempty_collection issues = true ->
  determine_analysis_status doc = ret "ERROR".
Proof.
  intros F N.
  rewrite (determine_analysis_status_fields doc (present_reachable _ _ _ F)).
  rewrite F. simpl field_or.
  rewrite (nonempty_collection_test _ N). reflexivity.
Qed.

Lemma determine_analysis_status_error_witness :
  let doc := doc_with_result [(PStr "packages", PList [sample_package]);
                              (PStr "issues", sample_issues)] in
  doc_field issues_path doc = Present sample_issues /\
  nonempty_collection sample_issues = true /\
  determine_analysis_status doc = ret "ERROR".
Proof.
  intros doc. split; [reflexivity|]. split; [reflexivity|].
  apply (determine_analysis_status_error doc sample_issues); reflexivity.
Defined.

(** C2: a document whose [analyzer.result.issues] is an empty collection and
    whose [analyzer.result.packages] is a non-empty list is classified
    "SUCCESS". *)
Theorem determine_analysis_status_success (doc issues pkg : pyval) (pkgs : list pyval) :
  doc_field issues_path doc = Present issues ->
  empty_collection issues = true ->
  doc_field packages_path doc = Present (PList (pkg :: pkgs)) ->
  determine_analysis_status doc = ret "SUCCESS".
Proof.
  intros F E P.
  rewrite (determine_analysis_status_fields doc (present_reachable _ _ _ F)).
  rewrite F, P. simpl field_or.
  rewrite (empty_collection_test _ E). reflexivity.
Qed.

Lemma determine_analysis_status_success_witness :
  let doc := doc_with_result [(PStr "packages", PList [sample_package]);
                              (PStr "issues", PDict [])] in
  doc_field issues_path doc = Present (PDict []) /\
  empty_collection (PDict []) = true /\
  doc_field packages_path doc = Present (PList [sample_package]) /\
  determine_analysis_status doc = ret "SUCCESS".
Proof.
  intros doc. repeat (split; [reflexivity|]).
  apply (determine_analysis_status_success doc (PDict []) sample_package []);
    reflexivity.
Defined.

(** C3: a document in which [analyzer.result.issues] and
    [analyzer.result.packages] are each empty or missing is classified
    "INCOMPLETE". *)
Theorem determine_analysis_status_incomplete (doc : pyval) :
  empty_or_absent (doc_field issues_path doc) ->
  empty_or_absent (doc_field packages_path doc) ->
  determine_analysis_status doc = ret "INCOMPLETE".
Proof.
  intros I P.
  rewrite (determine_analysis_status_fields doc (empty_or_absent_reachable _ _ I)).
  rewrite (empty_or_absent_test empty_dict _ eq_refl I), bind_ret_l.
  cbv beta iota.
  rewrite (empty_or_absent_test empty_list _ eq_refl P). reflexivity.
Qed.

Lemma determine_analysis_status_incomplete_witness :
  let doc := PDict [(PStr "analyzer", PDict [(PStr "result", PDict [(PStr "issues", PList [])])])] in
  empty_or_absent (doc_field issues_path doc) /\
  empty_or_absent (doc_field packages_path doc) /\
  determine_analysis_status doc = ret "INCOMPLETE".
Proof.
  intros doc. split; [reflexivity|]. split; [exact I|].
  apply (determine_analysis_status_incomplete doc); [reflexivity | exact I].
Defined.

(** Outside these cases the method raises: a path that runs into a value
    that is not a mapping, or a truthy field that has no length. *)
Example determine_analysis_status_null_analyzer :
  determine_analysis_status (PDict [(PStr "analyzer", PNone)])
  = raise (AttributeError "'NoneType' object has no attribute 'get'").
Proof. reflexivity. Qed.

Example determine_analysis_status_scalar_issues :
  determine_analysis_status (doc_with_result [(PStr "issues", PInt 5)])
  = raise (TypeError "object of type 'int' has no len()").
Proof. reflexivity. Qed.

(** ** Strings *)

Lemma append_assoc (a b c : string) : (a ++ b) ++ c = a ++ b ++ c.
Proof. induction a as [| x a IH]; simpl; [reflexivity | now rewrite IH]. Qed.



(** ** Effectful steps *)

Lemma io_bind_lift {A B} (r : res A) (f : A -> io B) :
  io_bind (lift r) f =
    match r with
    | inl e => ([], inl e)
    | inr a => f a
    end.
Proof.
  unfold io_bind, lift. destruct r as [e | a]; [reflexivity|].
  destruct (f a); reflexivity.
Qed.

Lemma io_bind_perform {A B} (ev : event) (r : res A) (f : A -> io B) :
  io_bind (perform ev r) f =
    match r with
    | inl e => ([ev], inl e)
    | inr a => (ev :: fst (f a), snd (f a))
    end.
Proof.
  unfold io_bind, perform. destruct r as [e | a]; [reflexivity|].
  destruct (f a); reflexivity.
Qed.

(** [generate_report], stage by stage *)
Lemma generate_report_stages (w : world) (g : generator) (path : string) :
  generate_report w g path =
    match safe_load w path with
    | inl e => ([LoadYaml path], inl e)
    | inr doc =>
        match prepare doc with
        | inl e => ([LoadYaml path], inl e)
        | inr (ki, status, prompt) =>
            match chat_completions_create w (self_deployment_name g)
                    system_message prompt with
            | inl e => ([LoadYaml path; request g prompt], inl e)
            | inr choices =>
                ([LoadYaml path; request g prompt], assemble w ki status choices)
            end
        end
    end.
Proof.
  unfold generate_report, load_ort_results.
  rewrite io_bind_perform.
  destruct (safe_load w path) as [e | doc]; [reflexivity|].
  unfold prepare.
  rewrite io_bind_lift.
  destruct (extract_key_info doc) as [e | ki]; [reflexivity|].
  rewrite io_bind_lift, bind_ret_l.
  destruct (determine_analysis_status doc) as [e | status]; [reflexivity|].
  rewrite io_bind_lift, bind_ret_l.
  destruct (generate_curation_prompt ki status) as [e | prompt]; [reflexivity|].
  rewrite io_bind_perform, bind_ret_l.
  unfold request, assemble. cbv beta iota.
  change (ret (ki, status, prompt)) with (@inr pyexn _ (ki, status, prompt)).
  cbv beta iota.
  destruct (chat_completions_create w (self_deployment_name g) system_message prompt)
    as [e | choices]; [reflexivity|].
  rewrite io_bind_lift.
  destruct (first_choice choices) as [e | report]; [reflexivity|].
  rewrite io_bind_lift, bind_ret_l.
  destruct (py_slice_to 8 (revision ki)) as [e | revision8]; reflexivity.
Qed.

Lemma io_bind_assoc {A B C} (m : io A) (f : A -> io B) (k : B -> io C) :
  io_bind (io_bind m f) k = io_bind m (fun a => io_bind (f a) k).
Proof.
  destruct m as [t [e | a]]; simpl; [reflexivity|].
  destruct (f a) as [t1 [e | b]]; simpl; [reflexivity|].
  destruct (k b) as [t2 r]. rewrite app_assoc. reflexivity.
Qed.

(** [print] either writes its text or raises and writes nothing *)
Lemma print_cases (w : world) (text : string) :
  (stdout_accepts w text = true /\ print w text = ([Print text], ret tt))
  \/ (exists msg,
        stdout_accepts w text = false /\
        print w text = ([], raise (UnicodeEncodeError msg))).
Proof.
  unfold print, stdout_accepts.
  destruct (ascii_only text); [left; split; reflexivity|].
  destruct (stdout_rejects w text) as [msg|].
  - right. exists msg. split; reflexivity.
  - left. split; reflexivity.
Qed.

Lemma print_accepted (w : world) (text : string) :
  stdout_accepts w text = true -> print w text = ([Print text], ret tt).
Proof.
  intros A. destruct (print_cases w text) as [[_ P] | (msg & R & _)];
    [exact P | rewrite A in R; discriminate R].
Qed.

(** printing texts in a row writes them all, or those before the first
    that standard output rejects *)
Lemma print_lines_cases (w : world) (texts : list string) :
  (forallb (stdout_accepts w) texts = true /\
   print_lines w texts = (map Print texts, ret tt))
  \/ (exists written text rest msg,
        texts = (written ++ text :: rest)%list /\
        forallb (stdout_accepts w) texts = false /\
        print_lines w texts = (map Print written, raise (UnicodeEncodeError msg))).
Proof.
  induction texts as [| text rest IH].
  - left. split; reflexivity.
  - cbn [print_lines forallb].
    destruct (print_cases w text) as [[A P] | (msg & R & P)]; rewrite P.
    + rewrite A. cbn [andb].
      destruct rest as [| text' rest']; [left; split; reflexivity|].
      destruct IH as [[F L] | (written & x & later & msg & E & F & L)].
      * left. split; [exact F|]. unfold io_bind. rewrite L. reflexivity.
      * right. exists (text :: written), x, later, msg.
        split; [rewrite E; reflexivity|]. split; [exact F|].
        unfold io_bind. rewrite L. reflexivity.
    + right. exists [], text, rest, msg. rewrite R.
      split; [reflexivity|]. split; [reflexivity|].
      destruct rest; reflexivity.
Qed.

Lemma success_output_texts (w : world) (report : string) :
  success_output w report = map Print (closing_texts w report).
Proof. reflexivity. Qed.

Lemma try_body_stages (w : world) (g : generator) :
  try_body w g =
    match generate_report w g input_file with
    | (t, inl e) => (t, inl e)
    | (t, inr report) =>
        match write_text w (output_file w) report with
        | inl e => ((t ++ [WriteFile (output_file w) report])%list, inl e)
        | inr _ =>
            ((t ++ WriteFile (output_file w) report
                :: fst (print_lines w (closing_texts w report)))%list,
             snd (print_lines w (closing_texts w report)))
        end
    end.
Proof.
  unfold try_body.
  destruct (generate_report w g input_file) as [t [e | report]]; [reflexivity|].
  unfold save_report.
  unfold io_bind at 1. rewrite io_bind_assoc, io_bind_perform.
  destruct (write_text w (output_file w) report) as [e | u]; reflexivity.
Qed.

Lemma generate_report_events (w : world) (g : generator) (path : string) (ev : event) :
  In ev (fst (generate_report w g path)) ->
  ev = LoadYaml path \/ exists prompt, ev = request g prompt.
Proof.
  rewrite generate_report_stages.
  destruct (safe_load w path) as [e | doc].
  - simpl. intros [<- | []]. left; reflexivity.
  - destruct (prepare doc) as [e | [[ki status] prompt]].
    + simpl. intros [<- | []]. left; reflexivity.
    + destruct (chat_completions_create w (self_deployment_name g) system_message prompt);
        simpl; intros [<- | [<- | []]];
        solve [left; reflexivity | right; eexists; reflexivity].
Qed.

(** the two lines about the missing key are ASCII: they are always
    written *)
Lemma main_without_key (w : world) :
  truthy (api_key (main_config w)) = false -> main w = (missing_key_output, 1%Z).
Proof. unfold main. intros ->. reflexivity. Qed.

Lemma main_with_generator (w : world) (g : generator) (t : list event) :
  truthy (api_key (main_config w)) = true ->
  __init__ w (main_config w) = (t, ret g) ->
  main w =
    match try_body w g with
    | (t', inr _) => ((t ++ t')%list, 0%Z)
    | (t', inl e) =>
        ((t ++ t'
            ++ fst (print w ("Error generating report: " ++ exn_message e)))%list,
         1%Z)
    end.
Proof. unfold main. intros -> ->. reflexivity. Qed.

Lemma init_events (w : world) (config : azure_config) (g : generator) (t : list event) :
  __init__ w config = (t, ret g) ->
  t = [NewClient (api_version config) (endpoint config) (api_key config)].
Proof.
  unfold __init__. rewrite io_bind_perform.
  destruct (AzureOpenAI w _ _ _); simpl; intros H; [discriminate H|].
  injection H as <- _. reflexivity.
Qed.

Lemma generate_report_cases (w : world) (g : generator) (path : string) :
  (exists e, generate_report w g path = ([LoadYaml path], raise e))
  \/ (exists doc ki status prompt r,
        safe_load w path = ret doc /\
        prepare doc = ret (ki, status, prompt) /\
        generate_report w g path = ([LoadYaml path; request g prompt], r)).
Proof.
  rewrite generate_report_stages.
  destruct (safe_load w path) as [e | doc] eqn:L; [left; exists e; reflexivity|].
  destruct (prepare doc) as [e | [[ki status] prompt]] eqn:P;
    [left; exists e; reflexivity|].
  right. exists doc, ki, status, prompt.
  destruct (chat_completions_create w (self_deployment_name g) system_message prompt);
    eexists; (split; [reflexivity|]); (split; [exact P|]); reflexivity.
Qed.

Lemma init_cases (w : world) (config : azure_config) :
  let c := NewClient (api_version config) (endpoint config) (api_key config) in
  (exists e, AzureOpenAI w (api_version config) (endpoint config) (api_key config)
             = Some e /\ __init__ w config = ([c], raise e))
  \/ (AzureOpenAI w (api_version config) (endpoint config) (api_key config) = None /\
      __init__ w config = ([c], ret {| self_deployment_name := deployment_name config |})).
Proof.
  unfold __init__. rewrite io_bind_perform.
  destruct (AzureOpenAI w _ _ _) as [e|]; simpl.
  - left. exists e. split; reflexivity.
  - right. split; reflexivity.
Qed.

Lemma print_is_print (w : world) (text : string) :
  forallb is_print (fst (print w text)) = true.
Proof.
  destruct (print_cases w text) as [[_ P] | (msg & _ & P)]; rewrite P; reflexivity.
Qed.

Lemma map_print_is_print (texts : list string) :
  forallb is_print (map Print texts) = true.
Proof. induction texts as [| x l IH]; [reflexivity | exact IH]. Qed.

Lemma among_prints (l : list event) (ev : event) :
  forallb is_print l = true -> In ev l -> is_print ev = true.
Proof. intros F I. rewrite forallb_forall in F. exact (F ev I). Qed.

Lemma success_output_prints (w : world) (report : string) :
  forallb is_print (success_output w report) = true.
Proof. reflexivity. Qed.

(** events that are all prints count for nothing among the other kinds *)
Lemma prints_do_nothing_else (kind : event -> bool) (steps printed : list event) :
  forallb is_print printed = true ->
  (forall text, kind (Print text) = false) ->
  filter kind (steps ++ printed)%list = filter kind steps.
Proof.
  intros F K. rewrite filter_app.
  assert (E : filter kind printed = []).
  { clear steps. induction printed as [| ev l IH]; [reflexivity|].
    simpl in F. apply andb_prop in F. destruct F as [P F].
    destruct ev; try discriminate P. simpl. rewrite K. exact (IH F). }
  rewrite E. apply app_nil_r.
Qed.

Lemma forallb_app_true {A} (f : A -> bool) (l l' : list A) :
  forallb f l = true -> forallb f l' = true -> forallb f (l ++ l')%list = true.
Proof. intros H H'. rewrite forallb_app, H, H'. reflexivity. Qed.

(** the runs of the script, by how far they get; [printed] stands for what
    the [print] calls after the last other event have written *)
Lemma main_shapes (w : world) :
  let config := main_config w in
  let c := NewClient (api_version config) (endpoint config) (api_key config) in
  let g := {| self_deployment_name := deployment_name config |} in
  main w = (missing_key_output, 1%Z)
  \/ main w = ([c], 1%Z)
  \/ (exists printed,
        forallb is_print printed = true /\
        main w = (([c; LoadYaml input_file] ++ printed)%list, 1%Z))
  \/ (exists prompt printed,
        forallb is_print printed = true /\
        main w = (([c; LoadYaml input_file; request g prompt] ++ printed)%list, 1%Z))
  \/ (exists prompt report printed,
        generate_report w g input_file
        = ([LoadYaml input_file; request g prompt], ret report) /\
        forallb is_print printed = true /\
        main w = (([c; LoadYaml input_file; request g prompt;
                    WriteFile (output_file w) report] ++ printed)%list, 1%Z))
  \/ (exists prompt report,
        generate_report w g input_file
        = ([LoadYaml input_file; request g prompt], ret report) /\
        write_text w (output_file w) report = ret tt /\
        main w = (([c; LoadYaml input_file; request g prompt;
                    WriteFile (output_file w) report] ++ success_output w report)%list,
                  0%Z)).
Proof.
  intros config c g.
  destruct (truthy (api_key config)) eqn:K;
    [|left; exact (main_without_key w K)].
  right.
  destruct (init_cases w config) as [(e & _ & G) | (_ & G)].
  - left. unfold main. fold config. rewrite K, G. reflexivity.
  - right. rewrite (main_with_generator w g [c] K G), try_body_stages.
    destruct (generate_report_cases w g input_file)
      as [[e R] | (doc & ki & status & prompt & r & _ & _ & R)]; rewrite R.
    + left. eexists. split; [|reflexivity]. apply print_is_print.
    + right. destruct r as [e | report].
      * left. exists prompt. eexists. split; [|reflexivity]. apply print_is_print.
      * right. destruct (write_text w (output_file w) report) as [e | u] eqn:Wr.
        -- left. exists prompt, report. eexists. split; [reflexivity|].
           split; [|reflexivity]. apply print_is_print.
        -- destruct (print_lines_cases w (closing_texts w report))
             as [[_ L] | (written & text & rest & msg & _ & _ & L)]; rewrite L.
           ++ right. exists prompt, report. destruct u.
              split; [reflexivity|]. split; [exact Wr | reflexivity].
           ++ left. exists prompt, report.
              exists (map Print written
                        ++ fst (print w ("Error generating report: "
                                         ++ exn_message (UnicodeEncodeError msg))))%list.
              split; [reflexivity|]. split.
              ** apply forallb_app_true;
                   [apply map_print_is_print | apply print_is_print].
              ** reflexivity.
Qed.

(** ** The [__main__] block *)

(** C4: without the variable [AZURE_OPENAI_API_KEY] the run prints the two
    lines about the missing key and exits with status 1; no client is built
    and no request is sent. *)
Theorem missing_api_key_exits (w : world) :
  environ w "AZURE_OPENAI_API_KEY" = None ->
  main w = (missing_key_output, 1%Z) /\
  forall ev, In ev (fst (main w)) -> contacts_service ev = false.
Proof.
  intros E.
  assert (M : main w = (missing_key_output, 1%Z)).
  { apply main_without_key. unfold main_config. simpl. rewrite E. reflexivity. }
  split; [exact M|].
  rewrite M. simpl. intros ev [<- | [<- | []]]; reflexivity.
Qed.

Lemma missing_api_key_exits_witness :
  let w := sample_world None (ret sample_doc) in
  environ w "AZURE_OPENAI_API_KEY" = None /\
  main w = (missing_key_output, 1%Z) /\
  forall ev, In ev (fst (main w)) -> contacts_service ev = false.
Proof.
  intros w. split; [reflexivity|].
  apply (missing_api_key_exits w). reflexivity.
Defined.

(** C10: a key that is set to the empty string counts as no key: the run is
    the one of a world without the variable, with the same two lines, exit
    status 1, no client and no request. *)
Theorem empty_api_key_exits (w w' : world) :
  environ w "AZURE_OPENAI_API_KEY" = Some EmptyString ->
  environ w' "AZURE_OPENAI_API_KEY" = None ->
  main w = main w' /\
  main w = (missing_key_output, 1%Z) /\
  forall ev, In ev (fst (main w)) -> contacts_service ev = false.
Proof.
  intros E E'.
  assert (M : main w = (missing_key_output, 1%Z)).
  { apply main_without_key. unfold main_config. simpl. rewrite E. reflexivity. }
  assert (M' : main w' = (missing_key_output, 1%Z)).
  { apply main_without_key. unfold main_config. simpl. rewrite E'. reflexivity. }
  split; [rewrite M, M'; reflexivity|].
  split; [exact M|].
  rewrite M. simpl. intros ev [<- | [<- | []]]; reflexivity.
Qed.

Lemma empty_api_key_exits_witness :
  let w := sample_world (Some EmptyString) (ret sample_doc) in
  let w' := sample_world None (ret sample_doc) in
  environ w "AZURE_OPENAI_API_KEY" = Some EmptyString /\
  environ w' "AZURE_OPENAI_API_KEY" = None /\
  main w = main w' /\
  main w = (missing_key_output, 1%Z) /\
  forall ev, In ev (fst (main w)) -> contacts_service ev = false.
Proof.
  intros w w'. split; [reflexivity|]. split; [reflexivity|].
  apply (empty_api_key_exits w w'); reflexivity.
Defined.

(** ** [generate_report] *)

Lemma metadata_header_text (generated status : string) (url revision8 : pyval) :
  metadata_header generated status url revision8 =
    "# ORT Analysis Curation Report" ++ nl ++ nl
    ++ "**Generated:** " ++ generated ++ "  " ++ nl
    ++ "**Status:** " ++ status ++ "  " ++ nl
    ++ "**Repository:** " ++ py_str url ++ "  " ++ nl
    ++ "**Revision:** " ++ py_str revision8 ++ "..." ++ nl
    ++ nl ++ "---" ++ nl ++ nl.
Proof.
  unfold metadata_header, unlines. rewrite !append_assoc. reflexivity.
Qed.

Lemma prepare_inv (doc : pyval) (ki : key_info) (status prompt : string) :
  prepare doc = ret (ki, status, prompt) ->
  extract_key_info doc = ret ki /\
  determine_analysis_status doc = ret status /\
  generate_curation_prompt ki status = ret prompt.
Proof.
  unfold prepare. intros H.
  apply bind_inv in H. destruct H as (ki' & X & H).
  apply bind_inv in H. destruct H as (status' & D & H).
  apply bind_inv in H. destruct H as (prompt' & P & H).
  injection H as -> -> ->. auto.
Qed.

Lemma str_concat_inv (s : string) (v : pyval) (r : string) :
  str_concat s v = ret r -> exists body, v = PStr body /\ r = s ++ body.
Proof.
  destruct v; simpl; intros H; try discriminate H.
  injection H as <-. eexists. split; reflexivity.
Qed.

Lemma first_choice_inv (choices : list pyval) (c : pyval) :
  first_choice choices = ret c -> exists rest, choices = c :: rest.
Proof.
  destruct choices as [| c' rest]; simpl; intros H; [discriminate H|].
  injection H as ->. eexists. reflexivity.
Qed.

Lemma generate_report_inv (w : world) (g : generator) (path : string)
    (t : list event) (r : string) :
  generate_report w g path = (t, ret r) ->
  exists doc ki status prompt revision8 body rest,
    safe_load w path = ret doc /\
    prepare doc = ret (ki, status, prompt) /\
    chat_completions_create w (self_deployment_name g) system_message prompt
      = ret (PStr body :: rest) /\
    py_slice_to 8 (revision ki) = ret revision8 /\
    r = metadata_header (strftime_now w 1 "%Y-%m-%d %H:%M:%S") status
          (repository_url ki) revision8 ++ body.
Proof.
  rewrite generate_report_stages.
  destruct (safe_load w path) as [e | doc] eqn:L; [intros H; discriminate H|].
  destruct (prepare doc) as [e | [[ki status] prompt]] eqn:P;
    [intros H; discriminate H|].
  destruct (chat_completions_create w (self_deployment_name g) system_message prompt)
    as [e | choices] eqn:C; [intros H; discriminate H|].
  intros H. injection H as _ H. unfold assemble in H.
  apply bind_inv in H. destruct H as (report & F & H).
  apply bind_inv in H. destruct H as (revision8 & S & H).
  apply str_concat_inv in H. destruct H as (body & -> & ->).
  apply first_choice_inv in F. destruct F as (rest & ->).
  exists doc, ki, status, prompt, revision8, body, rest.
  repeat split; solve [reflexivity | assumption].
Qed.

(** C7: a string that [generate_report] returns is the metadata header,
    which opens with "# ORT Analysis Curation Report" and carries the
    status found for the document and the first 8 characters of the
    extracted revision, followed by the text of the first choice of the
    response.  A file that the run writes holds such a string. *)
Theorem generate_report_header :
  (forall (w : world) (g : generator) (path : string) (t : list event) (r : string),
     generate_report w g path = (t, ret r) ->
     exists doc ki status prompt revision8 body rest,
       safe_load w path = ret doc /\
       extract_key_info doc = ret ki /\
       determine_analysis_status doc = ret status /\
       generate_curation_prompt ki status = ret prompt /\
       chat_completions_create w (self_deployment_name g) system_message prompt
         = ret (PStr body :: rest) /\
       py_slice_to 8 (revision ki) = ret revision8 /\
       (forall s, revision ki = PStr s -> revision8 = PStr (substring 0 8 s)) /\
       r = "# ORT Analysis Curation Report" ++ nl ++ nl
           ++ "**Generated:** " ++ strftime_now w 1 "%Y-%m-%d %H:%M:%S" ++ "  " ++ nl
           ++ "**Status:** " ++ status ++ "  " ++ nl
           ++ "**Repository:** " ++ py_str (repository_url ki) ++ "  " ++ nl
           ++ "**Revision:** " ++ py_str revision8 ++ "..." ++ nl
           ++ nl ++ "---" ++ nl ++ nl ++ body)
  /\
  (forall (w : world) (path content : string),
     In (WriteFile path content) (fst (main w)) ->
     path = output_file w /\
     exists g t, generate_report w g input_file = (t, ret content)).
Proof.
  split.
  - intros w g path t r H.
    destruct (generate_report_inv _ _ _ _ _ H)
      as (doc & ki & status & prompt & revision8 & body & rest & L & P & C & S & ->).
    destruct (prepare_inv _ _ _ _ P) as (X & D & Q).
    exists doc, ki, status, prompt, revision8, body, rest.
    repeat (split; [assumption|]).
    split.
    + intros s E. rewrite E in S. simpl in S. injection S as <-. reflexivity.
    + rewrite metadata_header_text, !append_assoc. reflexivity.
  - intros w path content I.
    assert (NP : forall printed,
               forallb is_print printed = true ->
               ~ In (WriteFile path content) printed).
    { intros printed F J. apply (among_prints _ _ F) in J. discriminate J. }
    destruct (main_shapes w)
      as [M | [M | [(printed & F & M) | [(prompt & printed & F & M)
         | [(prompt & report & printed & R & F & M)
         | (prompt & report & R & Wr & M)]]]]];
      rewrite M in I; cbn [fst app] in I.
    + destruct I as [D | [D | []]]; discriminate D.
    + destruct I as [D | []]. discriminate D.
    + destruct I as [D | [D | I]]; try discriminate D.
      contradiction (NP printed F I).
    + destruct I as [D | [D | [D | I]]]; try discriminate D.
      contradiction (NP printed F I).
    + destruct I as [D | [D | [D | [D | I]]]]; try discriminate D.
      * injection D as <- <-. split; [reflexivity|]. eexists. eexists. exact R.
      * contradiction (NP printed F I).
    + destruct I as [D | [D | [D | [D | I]]]]; try discriminate D.
      * injection D as <- <-. split; [reflexivity|]. eexists. eexists. exact R.
      * contradiction (NP (success_output w report) eq_refl I).
Qed.

Lemma generate_report_header_witness :
  let w := sample_world (Some "secret") (ret sample_doc) in
  exists t r,
    generate_report w sample_generator input_file = (t, ret r) /\
    exists doc ki status prompt revision8 body rest,
      safe_load w input_file = ret doc /\
      extract_key_info doc = ret ki /\
      determine_analysis_status doc = ret status /\
      generate_curation_prompt ki status = ret prompt /\
      chat_completions_create w (self_deployment_name sample_generator)
        system_message prompt = ret (PStr body :: rest) /\
      py_slice_to 8 (revision ki) = ret revision8 /\
      (forall s, revision ki = PStr s -> revision8 = PStr (substring 0 8 s)) /\
      r = "# ORT Analysis Curation Report" ++ nl ++ nl
          ++ "**Generated:** " ++ strftime_now w 1 "%Y-%m-%d %H:%M:%S" ++ "  " ++ nl
          ++ "**Status:** " ++ status ++ "  " ++ nl
          ++ "**Repository:** " ++ py_str (repository_url ki) ++ "  " ++ nl
          ++ "**Revision:** " ++ py_str revision8 ++ "..." ++ nl
          ++ nl ++ "---" ++ nl ++ nl ++ body.
Proof.
  intros w.
  destruct (generate_report w sample_generator input_file) as [t [e | r]] eqn:R;
    [vm_compute in R; discriminate R|].
  exists t, r. split; [reflexivity|].
  exact (proj1 generate_report_header w sample_generator input_file t r R).
Defined.

Example generate_report_sample :
  snd (generate_report (sample_world (Some "secret") (ret sample_doc))
         sample_generator input_file)
  = ret ("# ORT Analysis Curation Report" ++ nl ++ nl
         ++ "**Generated:** 2024-01-01 12:00:05  " ++ nl
         ++ "**Status:** SUCCESS  " ++ nl
         ++ "**Repository:** https://example.org/app.git  " ++ nl
         ++ "**Revision:** 01234567..." ++ nl
         ++ nl ++ "---" ++ nl ++ nl ++ "## Executive Summary").
Proof. vm_compute. reflexivity. Qed.

(** ** [extract_key_info] *)

Lemma extract_key_info_fields (doc : pyval) :
  well_shaped doc ->
  extract_key_info doc =
    ret {| repository_url :=
             field_or NA (doc_field ["repository"; "vcs_processed"; "url"] doc);
           revision :=
             field_or NA (doc_field ["repository"; "vcs_processed"; "revision"] doc);
           ort_version :=
             field_or NA (doc_field ["analyzer"; "environment"; "ort_version"] doc);
           scan_time :=
             {| start := field_or NA (doc_field ["analyzer"; "start_time"] doc);
                end_ := field_or NA (doc_field ["analyzer"; "end_time"] doc) |};
           projects :=
             field_or empty_list (doc_field ["analyzer"; "result"; "projects"] doc);
           packages :=
             field_or empty_list (doc_field ["analyzer"; "result"; "packages"] doc);
           issues :=
             field_or empty_dict (doc_field ["analyzer"; "result"; "issues"] doc);
           package_managers :=
             field_or empty_list
               (doc_field ["analyzer"; "config"; "enabled_package_managers"] doc) |}.
Proof.
  intros W. unfold well_shaped, extracted_paths in W.
  inversion_clear W as [| ? ? Rurl W1].
  inversion_clear W1 as [| ? ? Rrev W2].
  inversion_clear W2 as [| ? ? Rver W3].
  inversion_clear W3 as [| ? ? Rstart W4].
  inversion_clear W4 as [| ? ? Rend W5].
  inversion_clear W5 as [| ? ? Rproj W6].
  inversion_clear W6 as [| ? ? Rpkg W7].
  inversion_clear W7 as [| ? ? Riss W8].
  inversion_clear W8 as [| ? ? Rmgr _].
  unfold extract_key_info.
  rewrite (sub_get "analyzer" _ doc Rstart), bind_ret_l.
  rewrite (sub_get "result" ["projects"] (sub "analyzer" doc)), bind_ret_l by reach.
  rewrite (sub_get "repository" _ doc Rurl), bind_ret_l.
  rewrite (sub_get "vcs_processed" ["url"] (sub "repository" doc)), bind_ret_l by reach.
  rewrite (py_get_leaf "url"), bind_ret_l by reach.
  rewrite bind_ret_l.
  rewrite (py_get_leaf "revision"), bind_ret_l by reach.
  rewrite (sub_get "environment" ["ort_version"] (sub "analyzer" doc)), bind_ret_l
    by reach.
  rewrite (py_get_leaf "ort_version"), bind_ret_l by reach.
  rewrite (py_get_leaf "start_time"), bind_ret_l by reach.
  rewrite (py_get_leaf "end_time"), bind_ret_l by reach.
  rewrite (py_get_leaf "projects"), bind_ret_l by reach.
  rewrite (py_get_leaf "packages"), bind_ret_l by reach.
  rewrite (py_get_leaf "issues"), bind_ret_l by reach.
  rewrite (sub_get "config" ["enabled_package_managers"] (sub "analyzer" doc)),
    bind_ret_l by reach.
  rewrite (py_get_leaf "enabled_package_managers"), bind_ret_l by reach.
  rewrite !sub_field. reflexivity.
Qed.

(** ** [generate_curation_prompt] *)















(** the prompt in the other branch *)
Lemma generate_curation_prompt_other (ki : key_info) (status : string) :
  status <> "SUCCESS" ->
  generate_curation_prompt ki status =
    (h <- prompt_header ki status;;
     items <- py_items (issues ki);;
     p <- for_each add_project items (h ++ error_task);;
     ret (p ++ reminder)).
Proof.
  intros N. unfold generate_curation_prompt.
  destruct (String.eqb status "SUCCESS") eqn:E.
  - apply String.eqb_eq in E. contradiction.
  - cbv zeta. destruct (prompt_header ki status) as [e | h]; [reflexivity|].
    rewrite !bind_ret_l.
    destruct (py_items (issues ki)) as [e | items]; reflexivity.
Qed.









(** An entry that is present with a null value is not missing: it is shown
    as it is. *)
Example add_package_null_homepage :
  add_package (PDict [(PStr "homepage_url", PNone)]) EmptyString
  = ret (nl ++ "- Unknown" ++ nl ++ "  License: ['Unknown']" ++ nl ++ "  Homepage: None").
Proof. reflexivity. Qed.

(** The error-analysis branch needs a mapping of issues: a list, even an
    empty one, has no [items]. *)
Example generate_curation_prompt_issue_list :
  generate_curation_prompt
    {| repository_url := PStr "N/A";
       revision := PStr "N/A";
       ort_version := PStr "N/A";
       scan_time := {| start := PStr "N/A"; end_ := PStr "N/A" |};
       projects := PList [];
       packages := PList [];
       issues := PList [];
       package_managers := PList [] |} "INCOMPLETE"
  = raise (AttributeError "'list' object has no attribute 'items'").
Proof. reflexivity. Qed.

(** * Further properties *)

(** ** More on [determine_analysis_status] *)

(** when the test [v and len(v) > 0] gives an answer, it is the truth value
    of [v]: a truthy value with a length is never empty *)
Lemma truthy_and_nonempty_ret (v : pyval) (b : bool) :
  truthy_and_nonempty v = ret b -> b = truthy v.
Proof.
  unfold truthy_and_nonempty.
  destruct v as [ | b0 | n | s | l | d]; simpl.
  - intros H. injection H as <-. reflexivity.
  - destruct b0; intros H; [discriminate H | injection H as <-; reflexivity].
  - destruct (Z.eqb n 0); simpl; intros H;
      [injection H as <-; reflexivity | discriminate H].
  - destruct s; simpl; intros H; injection H as <-; reflexivity.
  - destruct l; simpl; intros H; injection H as <-; reflexivity.
  - destruct d; simpl; intros H; injection H as <-; reflexivity.
Qed.

Lemma get_chain3_blocked (k1 k2 k3 : string) (doc dflt v : pyval) :
  doc_field [k1; k2; k3] doc = Blocked v ->
  (a <- py_get doc k1 empty_dict;; b <- py_get a k2 empty_dict;; py_get b k3 dflt)
  = raise (no_attribute v "get").
Proof.
  destruct doc as [ | | | | | d];
    try (simpl; intros H; injection H as <-; reflexivity).
  cbn [doc_field]. rewrite py_get_dict, bind_ret_l. unfold entry_or.
  destruct (dict_lookup k1 d) as [a|]; [|intros H; discriminate H].
  destruct a as [ | | | | | da];
    try (simpl; intros H; injection H as <-; reflexivity).
  cbn [doc_field]. rewrite py_get_dict, bind_ret_l. unfold entry_or.
  destruct (dict_lookup k2 da) as [b|]; [|intros H; discriminate H].
  destruct b as [ | | | | | db];
    try (simpl; intros H; injection H as <-; reflexivity).
  cbn [doc_field]. destruct (dict_lookup k3 db); intros H; discriminate H.
Qed.

(** the method as a function of the two fields *)
Lemma determine_analysis_status_classify (doc : pyval) :
  determine_analysis_status doc =
    match doc_field issues_path doc with
    | Blocked v => raise (no_attribute v "get")
    | f => classify (field_or empty_dict f)
             (field_or empty_list (doc_field packages_path doc))
    end.
Proof.
  destruct (doc_field issues_path doc) as [ | i | v] eqn:F.
  - rewrite determine_analysis_status_fields, F by (unfold reachable; rewrite F; trivial).
    reflexivity.
  - rewrite determine_analysis_status_fields, F by (unfold reachable; rewrite F; trivial).
    reflexivity.
  - unfold determine_analysis_status.
    rewrite chain3_bind, (get_chain3_blocked _ _ _ _ _ _ F). reflexivity.
Qed.

Lemma classify_ret (i p : pyval) (status : string) :
  classify i p = ret status ->
  (status = "ERROR" /\ truthy i = true)
  \/ (status = "SUCCESS" /\ truthy i = false /\ truthy p = true)
  \/ (status = "INCOMPLETE" /\ truthy i = false /\ truthy p = false).
Proof.
  unfold classify. intros H.
  apply bind_inv in H. destruct H as (bi & Ti & H).
  apply truthy_and_nonempty_ret in Ti. destruct bi.
  - injection H as <-. left. auto.
  - apply bind_inv in H. destruct H as (bp & Tp & H).
    apply truthy_and_nonempty_ret in Tp. destruct bp; injection H as <-.
    + right. left. auto.
    + right. right. auto.
Qed.

(** X1: a status that is returned tells what the document holds: "ERROR"
    only with a truthy issues field, "SUCCESS" only with a falsy issues
    field and a truthy packages field, "INCOMPLETE" only when both are
    falsy; there is no fourth status. *)
Theorem status_tells_the_fields (doc : pyval) (status : string) :
  determine_analysis_status doc = ret status ->
  let i := field_or empty_dict (doc_field issues_path doc) in
  let p := field_or empty_list (doc_field packages_path doc) in
  (status = "ERROR" /\ truthy i = true)
  \/ (status = "SUCCESS" /\ truthy i = false /\ truthy p = true)
  \/ (status = "INCOMPLETE" /\ truthy i = false /\ truthy p = false).
Proof.
  rewrite determine_analysis_status_classify.
  destruct (doc_field issues_path doc) as [ | i | v]; intros H;
    [apply classify_ret, H | apply classify_ret, H | discriminate H].
Qed.

Lemma status_tells_the_fields_witness :
  let doc := doc_with_result [(PStr "packages", PList [sample_package])] in
  determine_analysis_status doc = ret "SUCCESS" /\
  ("SUCCESS" = "ERROR" /\ truthy (PDict []) = true
   \/ "SUCCESS" = "SUCCESS" /\ truthy (PDict []) = false
      /\ truthy (PList [sample_package]) = true
   \/ "SUCCESS" = "INCOMPLETE" /\ truthy (PDict []) = false
      /\ truthy (PList [sample_package]) = false).
Proof.
  intros doc. split; [reflexivity|].
  exact (status_tells_the_fields doc "SUCCESS" eq_refl).
Defined.

(** X2: the status, or the exception raised instead, is a function of the
    two fields [analyzer.result.issues] and [analyzer.result.packages]:
    two documents that agree on them are classified alike, whatever else
    they hold.  A path that runs into a value that is not a mapping gives
    the AttributeError for that value. *)
Theorem status_depends_on_two_fields :
  (forall doc,
     determine_analysis_status doc =
       match doc_field issues_path doc with
       | Blocked v => raise (no_attribute v "get")
       | f => classify (field_or empty_dict f)
                (field_or empty_list (doc_field packages_path doc))
       end)
  /\ (forall doc doc',
        doc_field issues_path doc = doc_field issues_path doc' ->
        doc_field packages_path doc = doc_field packages_path doc' ->
        determine_analysis_status doc = determine_analysis_status doc').
Proof.
  split.
  - exact determine_analysis_status_classify.
  - intros doc doc' I P. rewrite !determine_analysis_status_classify, I, P.
    reflexivity.
Qed.

Lemma status_depends_on_two_fields_witness :
  doc_field issues_path sample_doc
    = doc_field issues_path (doc_with_result [(PStr "packages", PList [sample_package])])
  /\ determine_analysis_status sample_doc
     = determine_analysis_status
         (doc_with_result [(PStr "packages", PList [sample_package])]).
Proof.
  split; [reflexivity|].
  apply (proj2 status_depends_on_two_fields); reflexivity.
Defined.

(** ** More on [extract_key_info] *)

Lemma bind_raise_inv {A B} (m : res A) (f : A -> res B) (e : pyexn) :
  bind m f = raise e -> m = raise e \/ exists a, m = ret a /\ f a = raise e.
Proof.
  destruct m as [e' | a]; simpl; intros H.
  - left. injection H as ->. reflexivity.
  - right. exists a. split; [reflexivity | exact H].
Qed.

Lemma py_get_ret (v : pyval) (k : string) (dflt x : pyval) :
  py_get v k dflt = ret x -> is_mapping v = true.
Proof. destruct v; simpl; intros H; try discriminate H. reflexivity. Qed.

Lemma py_get_raise (v : pyval) (k : string) (dflt : pyval) (e : pyexn) :
  py_get v k dflt = raise e -> e = no_attribute v "get".
Proof.
  destruct v as [ | | | | | d]; simpl; intros H;
    try (injection H as <-; reflexivity).
  destruct (dict_lookup k d); discriminate H.
Qed.

Lemma py_get_sub (v : pyval) (k : string) (x : pyval) :
  py_get v k empty_dict = ret x -> x = sub k v.
Proof. intros H. unfold sub. rewrite H. reflexivity. Qed.

Lemma reachable_leaf (k : string) (v : pyval) :
  is_mapping v = true -> reachable [k] v.
Proof.
  destruct v as [ | | | | | d]; try discriminate. intros _.
  unfold reachable. simpl. destruct (dict_lookup k d); trivial.
Qed.

Lemma reachable_step (k k' : string) (rest : list string) (v : pyval) :
  is_mapping v = true -> reachable (k' :: rest) (sub k v) ->
  reachable (k :: k' :: rest) v.
Proof.
  destruct v as [ | | | | | d]; try discriminate. intros _.
  unfold reachable, sub. rewrite py_get_dict. unfold entry_or. cbn [doc_field].
  destruct (dict_lookup k d); [trivial | intros _; exact I].
Qed.

Lemma extract_key_info_ret_well_shaped (doc : pyval) (ki : key_info) :
  extract_key_info doc = ret ki -> well_shaped doc.
Proof.
  unfold extract_key_info. intros H.
  apply bind_inv in H. destruct H as (analyzer & Ea & H).
  apply bind_inv in H. destruct H as (result & Er & H).
  apply bind_inv in H. destruct H as (repository & Ep & H).
  apply bind_inv in H. destruct H as (vcs & Ev & H).
  apply bind_inv in H. destruct H as (url & Eu & H).
  apply bind_inv in H. destruct H as (vcs' & _ & H).
  apply bind_inv in H. destruct H as (rev & _ & H).
  apply bind_inv in H. destruct H as (environment & Ee & H).
  apply bind_inv in H. destruct H as (version & Eo & H).
  apply bind_inv in H. destruct H as (start_time & _ & H).
  apply bind_inv in H. destruct H as (end_time & _ & H).
  apply bind_inv in H. destruct H as (projs & Ej & H).
  apply bind_inv in H. destruct H as (pkgs & _ & H).
  apply bind_inv in H. destruct H as (iss & _ & H).
  apply bind_inv in H. destruct H as (config & Ec & H).
  apply bind_inv in H. destruct H as (managers & Em & _).
  pose proof (py_get_ret _ _ _ _ Ea) as Md.
  pose proof (py_get_ret _ _ _ _ Er) as Ma.
  pose proof (py_get_ret _ _ _ _ Ev) as Mp.
  pose proof (py_get_ret _ _ _ _ Eu) as Mv.
  pose proof (py_get_ret _ _ _ _ Eo) as Me.
  pose proof (py_get_ret _ _ _ _ Ej) as Mr.
  pose proof (py_get_ret _ _ _ _ Em) as Mc.
  rewrite (py_get_sub _ _ _ Ea) in *. rewrite (py_get_sub _ _ _ Ep) in *.
  rewrite (py_get_sub _ _ _ Er) in *. rewrite (py_get_sub _ _ _ Ev) in *.
  rewrite (py_get_sub _ _ _ Ee) in *. rewrite (py_get_sub _ _ _ Ec) in *.
  unfold well_shaped, extracted_paths.
  repeat constructor;
    repeat (apply reachable_step; [assumption|]);
    apply reachable_leaf; assumption.
Qed.

Lemma extract_key_info_raise (doc : pyval) (e : pyexn) :
  extract_key_info doc = raise e -> exists v, e = no_attribute v "get".
Proof.
  unfold extract_key_info. intros H.
  repeat (apply bind_raise_inv in H;
          destruct H as [H | (? & _ & H)];
          [apply py_get_raise in H; eexists; exact H|]).
  discriminate H.
Qed.

(** X3: extraction returns a record exactly for the documents in which
    none of the nine paths it reads runs into a value that is not a
    mapping; for every other document it raises the AttributeError of a
    missing [get], and nothing else. *)
Theorem extract_key_info_returns_iff :
  (forall doc, (exists ki, extract_key_info doc = ret ki) <-> well_shaped doc)
  /\ (forall doc e,
        extract_key_info doc = raise e -> exists v, e = no_attribute v "get").
Proof.
  split.
  - intros doc. split.
    + intros [ki H]. exact (extract_key_info_ret_well_shaped doc ki H).
    + intros W. eexists. exact (extract_key_info_fields doc W).
  - exact extract_key_info_raise.
Qed.

Lemma extract_key_info_returns_iff_witness :
  (exists v,
     AttributeError "'NoneType' object has no attribute 'get'" = no_attribute v "get")
  /\ ~ well_shaped (PDict [(PStr "repository", PNone)]).
Proof.
  destruct extract_key_info_returns_iff as [Iff Raise]. split.
  - apply (Raise (PDict [(PStr "repository", PNone)])). reflexivity.
  - intros W. apply (proj2 (Iff _)) in W. destruct W as [ki H].
    vm_compute in H. discriminate H.
Defined.

(** ** The status and the counts of a prompt *)

Lemma truthy_len (v : pyval) (n : nat) :
  py_len v = ret n -> truthy v = negb (Nat.eqb n 0).
Proof.
  destruct v as [ | | | s | l | d]; simpl; intros H; try discriminate H;
    injection H as <-.
  - destruct s; reflexivity.
  - destruct l; reflexivity.
  - destruct d; reflexivity.
Qed.

Lemma truthy_len_positive (v : pyval) (n : nat) :
  py_len v = ret n -> truthy v = true -> exists m, n = S m.
Proof.
  intros L T. rewrite (truthy_len v n L) in T.
  destruct n as [| m]; [discriminate T | exists m; reflexivity].
Qed.

Lemma truthy_len_zero (v : pyval) (n : nat) :
  py_len v = ret n -> truthy v = false -> n = 0.
Proof.
  intros L T. rewrite (truthy_len v n L) in T.
  destruct n as [| m]; [reflexivity | discriminate T].
Qed.

Lemma generate_curation_prompt_lens (ki : key_info) (status prompt : string) :
  generate_curation_prompt ki status = ret prompt ->
  exists n_projects n_packages n_issues,
    py_len (projects ki) = ret n_projects /\
    py_len (packages ki) = ret n_packages /\
    py_len (issues ki) = ret n_issues.
Proof.
  unfold generate_curation_prompt, prompt_header. intros H.
  apply bind_inv in H. destruct H as (h & H & _).
  apply bind_inv in H. destruct H as (n1 & L1 & H).
  apply bind_inv in H. destruct H as (n2 & L2 & H).
  apply bind_inv in H. destruct H as (n3 & L3 & _).
  exists n1, n2, n3. auto.
Qed.

(** X4: in a prompt built for a document the status line and the counts do
    not contradict each other: under "ERROR" the number of issues is
    positive, under "SUCCESS" it is 0 and the number of packages is
    positive, under "INCOMPLETE" both are 0. *)
Theorem status_matches_counts (doc : pyval) (ki : key_info) (status prompt : string) :
  extract_key_info doc = ret ki ->
  determine_analysis_status doc = ret status ->
  generate_curation_prompt ki status = ret prompt ->
  exists n_packages n_issues,
    py_len (packages ki) = ret n_packages /\
    py_len (issues ki) = ret n_issues /\
    ((status = "ERROR" /\ 0 < n_issues)
     \/ (status = "SUCCESS" /\ n_issues = 0 /\ 0 < n_packages)
     \/ (status = "INCOMPLETE" /\ n_issues = 0 /\ n_packages = 0)).
Proof.
  intros X D P.
  pose proof (extract_key_info_ret_well_shaped doc ki X) as W.
  rewrite (extract_key_info_fields doc W) in X. injection X as <-.
  destruct (generate_curation_prompt_lens _ _ _ P) as (n1 & n2 & n3 & _ & L2 & L3).
  cbn [packages issues] in L2, L3 |- *.
  exists n2, n3. split; [exact L2|]. split; [exact L3|].
  rewrite determine_analysis_status_classify in D.
  change (doc_field ["analyzer"; "result"; "issues"] doc)
    with (doc_field issues_path doc) in L3.
  change (doc_field ["analyzer"; "result"; "packages"] doc)
    with (doc_field packages_path doc) in L2.
  assert (C : classify (field_or empty_dict (doc_field issues_path doc))
                (field_or empty_list (doc_field packages_path doc)) = ret status).
  { destruct (doc_field issues_path doc); [exact D | exact D | discriminate D]. }
  destruct (classify_ret _ _ _ C) as [[-> Ti] | [(-> & Ti & Tp) | (-> & Ti & Tp)]].
  - left. split; [reflexivity|].
    destruct (truthy_len_positive _ _ L3 Ti) as [m ->]. apply Nat.lt_0_succ.
  - right. left. split; [reflexivity|].
    split; [exact (truthy_len_zero _ _ L3 Ti)|].
    destruct (truthy_len_positive _ _ L2 Tp) as [m ->]. apply Nat.lt_0_succ.
  - right. right. split; [reflexivity|].
    split; [exact (truthy_len_zero _ _ L3 Ti) | exact (truthy_len_zero _ _ L2 Tp)].
Qed.

Lemma status_matches_counts_witness :
  exists ki prompt n_packages n_issues,
    extract_key_info sample_doc = ret ki /\
    generate_curation_prompt ki "SUCCESS" = ret prompt /\
    py_len (packages ki) = ret n_packages /\
    py_len (issues ki) = ret n_issues /\
    (("SUCCESS" = "ERROR" /\ 0 < n_issues)
     \/ ("SUCCESS" = "SUCCESS" /\ n_issues = 0 /\ 0 < n_packages)
     \/ ("SUCCESS" = "INCOMPLETE" /\ n_issues = 0 /\ n_packages = 0)).
Proof.
  destruct (extract_key_info sample_doc) as [e | ki] eqn:X;
    [vm_compute in X; discriminate X|].
  destruct (generate_curation_prompt ki "SUCCESS") as [e | prompt] eqn:P;
    [injection X as <-; vm_compute in P; discriminate P|].
  destruct (status_matches_counts sample_doc ki "SUCCESS" prompt X eq_refl P)
    as (n2 & n3 & L2 & L3 & Cases).
  exists ki, prompt, n2, n3. auto.
Defined.

(** ** The events of [generate_report] and of a run *)

(** X5: [generate_report] reads the file once and sends at most one
    request; a request carries the deployment name, the fixed system
    message and the prompt built from the loaded document, and is sent only
    when loading, extraction, classification and prompt building have all
    succeeded.  It writes and prints nothing. *)
Theorem generate_report_sends_one_request (w : world) (g : generator) (path : string) :
  fst (generate_report w g path) = [LoadYaml path]
  \/ exists doc ki status prompt,
       safe_load w path = ret doc /\
       extract_key_info doc = ret ki /\
       determine_analysis_status doc = ret status /\
       generate_curation_prompt ki status = ret prompt /\
       fst (generate_report w g path)
       = [LoadYaml path;
          ChatCompletion (self_deployment_name g) system_message prompt].
Proof.
  destruct (generate_report_cases w g path)
    as [[e ->] | (doc & ki & status & prompt & r & L & P & ->)].
  - left. reflexivity.
  - right. destruct (prepare_inv _ _ _ _ P) as (X & D & Q).
    exists doc, ki, status, prompt. repeat split; assumption || reflexivity.
Qed.

Lemma key_truthy (w : world) :
  truthy (api_key (main_config w)) = true ->
  exists key,
    environ w "AZURE_OPENAI_API_KEY" = Some key /\ key <> EmptyString /\
    api_key (main_config w) = PStr key.
Proof.
  unfold main_config. cbn [api_key].
  destruct (environ w "AZURE_OPENAI_API_KEY") as [key|]; simpl; [|discriminate].
  intros T. exists key. split; [reflexivity|]. split; [|reflexivity].
  intros ->. discriminate T.
Qed.

(** X6: exit status 0 is only given by the full run: a key that is set and
    not empty, one client, the input file loaded, one request, the report
    written to the output file without an exception, and then the six lines
    that close a good run, in this order and with nothing else. *)
Theorem exit_zero_means_report_written (w : world) :
  snd (main w) = 0%Z ->
  exists key prompt report,
    environ w "AZURE_OPENAI_API_KEY" = Some key /\
    key <> EmptyString /\
    write_text w (output_file w) report = ret tt /\
    fst (main w) =
      ([ NewClient "2025-01-01-preview" (endpoint (main_config w)) (PStr key);
         LoadYaml input_file;
         ChatCompletion "gpt-4.1-mini" system_message prompt;
         WriteFile (output_file w) report ] ++ success_output w report)%list.
Proof.
  intros Z0.
  destruct (truthy (api_key (main_config w))) eqn:K;
    [|rewrite (main_without_key w K) in Z0; discriminate Z0].
  destruct (key_truthy w K) as (key & E & N & A).
  destruct (main_shapes w)
    as [M | [M | [(printed & F & M) | [(prompt & printed & F & M)
       | [(prompt & report & printed & R & F & M)
       | (prompt & report & R & Wr & M)]]]]];
    rewrite M in Z0; try discriminate Z0.
  exists key, prompt, report. repeat (split; [assumption|]).
  rewrite M, A. reflexivity.
Qed.

Lemma exit_zero_means_report_written_witness :
  let w := sample_world (Some "secret") (ret sample_doc) in
  snd (main w) = 0%Z /\
  exists key prompt report,
    environ w "AZURE_OPENAI_API_KEY" = Some key /\
    key <> EmptyString /\
    write_text w (output_file w) report = ret tt /\
    fst (main w) =
      ([ NewClient "2025-01-01-preview" (endpoint (main_config w)) (PStr key);
         LoadYaml input_file;
         ChatCompletion "gpt-4.1-mini" system_message prompt;
         WriteFile (output_file w) report ] ++ success_output w report)%list.
Proof.
  intros w.
  assert (Z0 : snd (main w) = 0%Z) by (vm_compute; reflexivity).
  split; [exact Z0|]. exact (exit_zero_means_report_written w Z0).
Defined.

(** X7: no run repeats a step: at most one client is built, the input is
    loaded at most once, at most one request is sent and at most one file
    is written; a file is written only in a run that sent a request, a
    request only in a run that loaded the input, and the exit status is 0
    or 1. *)
Theorem run_never_repeats_a_step (w : world) :
  (snd (main w) = 0%Z \/ snd (main w) = 1%Z)
  /\ List.length (filter is_new_client (fst (main w))) <= 1
  /\ List.length (filter is_load (fst (main w))) <= 1
  /\ List.length (filter is_request (fst (main w))) <= 1
  /\ List.length (filter is_write (fst (main w))) <= 1
  /\ List.length (filter is_write (fst (main w)))
     <= List.length (filter is_request (fst (main w)))
  /\ List.length (filter is_request (fst (main w)))
     <= List.length (filter is_load (fst (main w))).
Proof.
  destruct (main_shapes w)
    as [M | [M | [(printed & F & M) | [(prompt & printed & F & M)
       | [(prompt & report & printed & R & F & M)
       | (prompt & report & R & Wr & M)]]]]];
    rewrite M; unfold missing_key_output, request; cbn [fst snd];
    try (rewrite !(prints_do_nothing_else _ _ _ (success_output_prints w report))
           by (intros; reflexivity));
    try (rewrite !(prints_do_nothing_else _ _ _ F) by (intros; reflexivity));
    cbn [fst snd app filter is_new_client is_load is_request is_write List.length];
    repeat split;
    solve [apply Nat.le_refl | apply Nat.le_0_l | left; reflexivity | right; reflexivity].
Qed.

(** X8: an exception out of the client's constructor is outside the [try]
    statement: the run stops with exit status 1 right after the attempt,
    the input is not loaded and the handler prints nothing. *)
Theorem constructor_failure_is_not_handled (w : world) (key : string) (e : pyexn) :
  environ w "AZURE_OPENAI_API_KEY" = Some key ->
  key <> EmptyString ->
  AzureOpenAI w "2025-01-01-preview" (endpoint (main_config w)) (PStr key) = Some e ->
  main w =
    ([NewClient "2025-01-01-preview" (endpoint (main_config w)) (PStr key)], 1%Z).
Proof.
  intros E N C.
  assert (A : api_key (main_config w) = PStr key).
  { unfold main_config. cbn [api_key]. rewrite E. reflexivity. }
  assert (K : truthy (api_key (main_config w)) = true).
  { rewrite A. simpl. destruct key; [contradiction N; reflexivity | reflexivity]. }
  unfold main. rewrite K. cbn [negb].
  unfold __init__. rewrite io_bind_perform, A.
  change (api_version (main_config w)) with "2025-01-01-preview".
  rewrite C. reflexivity.
Qed.

Lemma constructor_failure_is_not_handled_witness :
  let w := world_with (Some "secret") (Some (LibraryError "Connection error."))
             (ret sample_doc) (ret [PStr "## Executive Summary"]) (ret tt) in
  main w =
    ([NewClient "2025-01-01-preview"
        "https://ltts-cariad-ddd-mvp-ai-foundry.cognitiveservices.azure.com"
        (PStr "secret")], 1%Z).
Proof.
  intros w.
  apply (constructor_failure_is_not_handled w "secret"
           (LibraryError "Connection error.")).
  - reflexivity.
  - discriminate.
  - reflexivity.
Defined.

(** ** What can go wrong after the request *)

Lemma generate_report_after_request (w : world) (g : generator) (path : string)
    (doc : pyval) (ki : key_info) (status prompt : string) (choices : list pyval) :
  safe_load w path = ret doc ->
  extract_key_info doc = ret ki ->
  determine_analysis_status doc = ret status ->
  generate_curation_prompt ki status = ret prompt ->
  chat_completions_create w (self_deployment_name g) system_message prompt
    = ret choices ->
  generate_report w g path
  = ([LoadYaml path; request g prompt], assemble w ki status choices).
Proof.
  intros L X D P C. rewrite generate_report_stages, L.
  unfold ret at 1. cbv beta iota.
  unfold prepare. rewrite X, bind_ret_l, D, bind_ret_l, P, bind_ret_l.
  unfold ret at 1. cbv beta iota. rewrite C. reflexivity.
Qed.

(** X9: a response that does not start with a choice holding text leaves
    no report: the request has been sent, and [generate_report] raises,
    with the IndexError of an empty list when there is no choice at all. *)
Theorem response_without_text_is_an_error (w : world) (g : generator) (path : string)
    (doc : pyval) (ki : key_info) (status prompt : string) (choices : list pyval) :
  safe_load w path = ret doc ->
  extract_key_info doc = ret ki ->
  determine_analysis_status doc = ret status ->
  generate_curation_prompt ki status = ret prompt ->
  chat_completions_create w (self_deployment_name g) system_message prompt
    = ret choices ->
  (forall body rest, choices <> PStr body :: rest) ->
  exists e,
    generate_report w g path = ([LoadYaml path; request g prompt], raise e) /\
    (choices = [] -> e = IndexError "list index out of range").
Proof.
  intros L X D P C N.
  rewrite (generate_report_after_request w g path doc ki status prompt choices L X D P C).
  unfold assemble. destruct choices as [| c rest]; simpl first_choice.
  - eexists. split; [reflexivity|]. intros _. reflexivity.
  - rewrite bind_ret_l.
    destruct (py_slice_to 8 (revision ki)) as [e | revision8].
    + exists e. split; [reflexivity|]. intros H. discriminate H.
    + rewrite bind_ret_l.
      destruct c as [ | | | body | | ];
        try (eexists; split; [reflexivity | intros H; discriminate H]).
      contradiction (N body rest). reflexivity.
Qed.

Lemma response_without_text_is_an_error_witness :
  let w := world_with (Some "secret") None (ret sample_doc) (ret []) (ret tt) in
  exists prompt,
    generate_report w sample_generator input_file
    = ([LoadYaml input_file; request sample_generator prompt],
       raise (IndexError "list index out of range")).
Proof.
  intros w.
  destruct (extract_key_info sample_doc) as [e | ki] eqn:X;
    [vm_compute in X; discriminate X|].
  destruct (generate_curation_prompt ki "SUCCESS") as [e | prompt] eqn:P;
    [injection X as <-; vm_compute in P; discriminate P|].
  destruct (response_without_text_is_an_error w sample_generator input_file
              sample_doc ki "SUCCESS" prompt [] eq_refl X eq_refl P eq_refl)
    as (e & R & E).
  - intros body rest H. discriminate H.
  - exists prompt. rewrite R, (E eq_refl). reflexivity.
Defined.

(** X10: the revision is cut for the header only after the request has
    been answered: when the extracted revision is neither text nor a list,
    a number for one, [generate_report] has sent its request and then
    raises instead of returning a report. *)
Theorem unsliceable_revision_fails_after_request (w : world) (g : generator)
    (path : string) (doc : pyval) (ki : key_info) (status prompt : string)
    (c : pyval) (rest : list pyval) :
  safe_load w path = ret doc ->
  extract_key_info doc = ret ki ->
  determine_analysis_status doc = ret status ->
  generate_curation_prompt ki status = ret prompt ->
  chat_completions_create w (self_deployment_name g) system_message prompt
    = ret (c :: rest) ->
  sliceable (revision ki) = false ->
  exists e,
    py_slice_to 8 (revision ki) = raise e /\
    generate_report w g path = ([LoadYaml path; request g prompt], raise e).
Proof.
  intros L X D P C S.
  rewrite (generate_report_after_request w g path doc ki status prompt _ L X D P C).
  unfold assemble. simpl first_choice. rewrite bind_ret_l.
  destruct (revision ki) as [ | | | | | ]; try discriminate S;
    simpl py_slice_to; eexists; split; reflexivity.
Qed.

Lemma unsliceable_revision_fails_after_request_witness :
  let w := world_with (Some "secret") None (ret numeric_revision_doc)
             (ret [PStr "## Executive Summary"]) (ret tt) in
  exists prompt,
    generate_report w sample_generator input_file
    = ([LoadYaml input_file; request sample_generator prompt],
       raise (TypeError "'int' object is not subscriptable")).
Proof.
  intros w.
  destruct (extract_key_info numeric_revision_doc) as [e | ki] eqn:X;
    [vm_compute in X; discriminate X|].
  destruct (generate_curation_prompt ki "SUCCESS") as [e | prompt] eqn:P;
    [injection X as <-; vm_compute in P; discriminate P|].
  assert (S : sliceable (revision ki) = false)
    by (injection X as <-; reflexivity).
  destruct (unsliceable_revision_fails_after_request w sample_generator input_file
              numeric_revision_doc ki "SUCCESS" prompt (PStr "## Executive Summary") []
              eq_refl X eq_refl P eq_refl S)
    as (e & E & R).
  exists prompt. rewrite R. injection X as <-. simpl in E. injection E as <-.
  reflexivity.
Defined.

(** ** The error-analysis branch of the prompt *)











(** ** What the prompt leaves out *)

(** X13: the prompt never shows the enabled package managers; it shows of
    the projects only their number; under a status other than "SUCCESS" it
    shows of the packages only their number, and under "SUCCESS" of the
    issues only their number. *)
Theorem prompt_leaves_out (ki : key_info) :
  (forall v status,
     generate_curation_prompt (set_package_managers ki v) status
     = generate_curation_prompt ki status)
  /\ (forall v status,
        py_len v = py_len (projects ki) ->
        generate_curation_prompt (set_projects ki v) status
        = generate_curation_prompt ki status)
  /\ (forall v status,
        status <> "SUCCESS" ->
        py_len v = py_len (packages ki) ->
        generate_curation_prompt (set_packages ki v) status
        = generate_curation_prompt ki status)
  /\ (forall v,
        py_len v = py_len (issues ki) ->
        generate_curation_prompt (set_issues ki v) "SUCCESS"
        = generate_curation_prompt ki "SUCCESS").
Proof.
  split; [|split; [|split]].
  - intros v status. reflexivity.
  - intros v status L. unfold generate_curation_prompt, prompt_header.
    cbn [set_projects projects packages issues repository_url revision ort_version
         scan_time]. rewrite L. reflexivity.
  - intros v status N L. unfold generate_curation_prompt, prompt_header.
    destruct (String.eqb status "SUCCESS") eqn:E;
      [apply String.eqb_eq in E; contradiction|].
    cbn [set_packages projects packages issues repository_url revision ort_version
         scan_time]. rewrite L. reflexivity.
  - intros v L. unfold generate_curation_prompt, prompt_header.
    change (String.eqb "SUCCESS" "SUCCESS") with true. cbv iota.
    cbn [set_issues projects packages issues repository_url revision ort_version
         scan_time]. rewrite L. reflexivity.
Qed.

Lemma prompt_leaves_out_witness :
  let ki := set_packages default_key_info (PList [sample_package]) in
  generate_curation_prompt (set_packages ki (PList [PInt 7])) "ERROR"
  = generate_curation_prompt ki "ERROR"
  /\ generate_curation_prompt (set_issues ki (PStr EmptyString)) "SUCCESS"
     = generate_curation_prompt ki "SUCCESS".
Proof.
  intros ki.
  destruct (prompt_leaves_out ki) as (_ & _ & Packages & Issues). split.
  - apply Packages; [discriminate | reflexivity].
  - apply Issues. reflexivity.
Defined.

(** X14: the error-analysis branch needs its issues as a mapping: under a
    status other than "SUCCESS", issues of any other kind, a list included,
    make prompt generation raise the AttributeError of a missing [items],
    although classification accepts such a document. *)
Theorem issues_must_be_a_mapping (ki : key_info) (status h : string) :
  status <> "SUCCESS" ->
  prompt_header ki status = ret h ->
  is_mapping (issues ki) = false ->
  generate_curation_prompt ki status = raise (no_attribute (issues ki) "items").
Proof.
  intros N H M.
  rewrite (generate_curation_prompt_other ki status N), H, bind_ret_l.
  destruct (issues ki); try discriminate M; reflexivity.
Qed.

Lemma issues_must_be_a_mapping_witness :
  let doc := doc_with_result [(PStr "issues", PList [sample_issue])] in
  let ki := set_issues default_key_info (PList [sample_issue]) in
  determine_analysis_status doc = ret "ERROR" /\
  extract_key_info doc = ret ki /\
  generate_curation_prompt ki "ERROR"
  = raise (AttributeError "'list' object has no attribute 'items'").
Proof.
  intros doc ki. split; [reflexivity|]. split; [reflexivity|].
  destruct (prompt_header ki "ERROR") as [e | h] eqn:H;
    [vm_compute in H; discriminate H|].
  apply (issues_must_be_a_mapping ki "ERROR" h); [discriminate | exact H | reflexivity].
Defined.

(** X15: every run that has a usable key begins by building one client,
    with the API version '2025-01-01-preview', the key as it stands in the
    environment, and as endpoint the value of AZURE_OPENAI_ENDPOINT when
    the variable is set, empty or not, and the built-in address
    otherwise. *)
Theorem run_begins_with_the_client (w : world) (key : string) :
  environ w "AZURE_OPENAI_API_KEY" = Some key ->
  key <> EmptyString ->
  exists later,
    fst (main w) =
      NewClient "2025-01-01-preview"
        match environ w "AZURE_OPENAI_ENDPOINT" with
        | Some e => e
        | None => "https://ltts-cariad-ddd-mvp-ai-foundry.cognitiveservices.azure.com"
        end
        (PStr key) :: later.
Proof.
  intros E N.
  assert (A : api_key (main_config w) = PStr key).
  { unfold main_config. cbn [api_key]. rewrite E. reflexivity. }
  assert (K : truthy (api_key (main_config w)) = true).
  { rewrite A. simpl. destruct key; [contradiction N; reflexivity | reflexivity]. }
  destruct (main_shapes w)
    as [M | [M | [(printed & F & M) | [(prompt & printed & F & M)
       | [(prompt & report & printed & R & F & M)
       | (prompt & report & R & Wr & M)]]]]].
  - destruct (init_cases w (main_config w)) as [(e & _ & G) | (_ & G)].
    + unfold main in M. rewrite K, G in M. discriminate M.
    + rewrite (main_with_generator w _ _ K G) in M.
      destruct (try_body w _) as [t' [e | u]]; discriminate M.
  - rewrite M, A. eexists. reflexivity.
  - rewrite M, A. eexists. reflexivity.
  - rewrite M, A. eexists. reflexivity.
  - rewrite M, A. eexists. reflexivity.
  - rewrite M, A. eexists. reflexivity.
Qed.

Lemma run_begins_with_the_client_witness :
  let w := world_with (Some "secret") None (raise (LibraryError "No such file"))
             (ret []) (ret tt) in
  exists later,
    fst (main w) =
      NewClient "2025-01-01-preview"
        "https://ltts-cariad-ddd-mvp-ai-foundry.cognitiveservices.azure.com"
        (PStr "secret") :: later.
Proof.
  intros w.
  apply (run_begins_with_the_client w "secret"); [reflexivity | discriminate].
Defined.

(** * The handler of the run *)

Lemma try_body_after_report (w : world) (g : generator) (tr : list event)
    (report : string) :
  generate_report w g input_file = (tr, ret report) ->
  try_body w g =
    match write_text w (output_file w) report with
    | inl e => ((tr ++ [WriteFile (output_file w) report])%list, inl e)
    | inr _ =>
        ((tr ++ WriteFile (output_file w) report
             :: fst (print_lines w (closing_texts w report)))%list,
         snd (print_lines w (closing_texts w report)))
    end.
Proof. intros R. rewrite try_body_stages, R. reflexivity. Qed.

Lemma report_starts_with_hash (w : world) (g : generator) (path : string)
    (tr : list event) (report : string) :
  generate_report w g path = (tr, ret report) ->
  exists rest, report = String "#" rest.
Proof.
  intros R.
  destruct (generate_report_inv _ _ _ _ _ R)
    as (doc & ki & status & prompt & revision8 & body & rest & _ & _ & _ & _ & ->).
  unfold metadata_header, unlines. simpl. eexists. reflexivity.
Qed.

(** none of the texts printed in the [try] body can be taken for the
    handler's line *)
Lemma closing_texts_not_handler (w : world) (report rest text m : string) :
  report = String "#" rest ->
  In text (closing_texts w report) ->
  text <> "Error generating report: " ++ m.
Proof.
  intros -> I E. unfold closing_texts in I.
  change 1000 with (S 999) in I. cbn [In] in I.
  destruct I as [<- | [<- | [<- | [<- | [<- | [<- | []]]]]]];
    simpl in E; discriminate E.
Qed.

(** a text printed in the [try] body is one of the closing texts of a
    report that was generated *)
Lemma try_body_prints (w : world) (g : generator) (text : string) :
  In (Print text) (fst (try_body w g)) ->
  exists tr report,
    generate_report w g input_file = (tr, ret report) /\
    In text (closing_texts w report).
Proof.
  rewrite try_body_stages.
  pose proof (generate_report_events w g input_file) as Ev.
  destruct (generate_report w g input_file) as [tr [e | report]] eqn:R;
    cbn [fst] in Ev.
  - cbn [fst]. intros I.
    destruct (Ev _ I) as [D | [prompt D]]; discriminate D.
  - assert (P : forall l, In (Print text) (tr ++ WriteFile (output_file w) report :: l)%list ->
                  In (Print text) l).
    { intros l I. apply in_app_or in I. destruct I as [I | [D | I]].
      - destruct (Ev _ I) as [D | [prompt D]]; discriminate D.
      - discriminate D.
      - exact I. }
    destruct (write_text w (output_file w) report) as [e | u]; cbn [fst]; intros I.
    + destruct (P [] I).
    + apply P in I. exists tr, report. split; [reflexivity|].
      destruct (print_lines_cases w (closing_texts w report))
        as [[_ L] | (written & x & later & msg & E & _ & L)];
        rewrite L in I; cbn [fst] in I; apply in_map_iff in I;
        destruct I as (text' & D & I); injection D as ->.
      * exact I.
      * rewrite E. apply in_or_app. left. exact I.
Qed.

(** C5, as the code has it: with a key and a client, every exception that
    leaves the [try] body is handled by the one handler of the block, and
    the run ends with exit status 1.  The exception may come from loading
    the document, from the request, from writing the file, or from one of
    the [print] calls that follow the save.  The handler prints "Error
    generating report: " and the exception's message, once and after
    everything else, when standard output accepts that line; no line
    printed before it can be taken for it.  The exit status is 0 exactly
    when the whole [try] body, its closing [print] calls included, ends
    without an exception: a report that is generated and saved gives 0 when
    standard output accepts the six closing texts, and 1 otherwise. *)
Theorem top_level_handler (w : world) (g : generator) (t : list event) :
  truthy (api_key (main_config w)) = true ->
  __init__ w (main_config w) = (t, ret g) ->
  (forall t' e,
     try_body w g = (t', raise e) ->
     snd (main w) = 1%Z
     /\ (stdout_accepts w ("Error generating report: " ++ exn_message e) = true ->
         main w =
           ((t ++ t' ++ [Print ("Error generating report: " ++ exn_message e)])%list,
            1%Z))
     /\ (stdout_accepts w ("Error generating report: " ++ exn_message e) = false ->
         main w = ((t ++ t')%list, 1%Z))
     /\ (forall text m,
           In (Print text) (t ++ t')%list ->
           text <> "Error generating report: " ++ m))
  /\ (forall e, safe_load w input_file = raise e ->
        try_body w g = ([LoadYaml input_file], raise e))
  /\ (forall doc ki status prompt e,
        safe_load w input_file = ret doc ->
        extract_key_info doc = ret ki ->
        determine_analysis_status doc = ret status ->
        generate_curation_prompt ki status = ret prompt ->
        chat_completions_create w (self_deployment_name g) system_message prompt
          = raise e ->
        try_body w g = ([LoadYaml input_file; request g prompt], raise e))
  /\ (forall tr report e,
        generate_report w g input_file = (tr, ret report) ->
        write_text w (output_file w) report = raise e ->
        try_body w g = ((tr ++ [WriteFile (output_file w) report])%list, raise e))
  /\ (forall tr report,
        generate_report w g input_file = (tr, ret report) ->
        write_text w (output_file w) report = ret tt ->
        (forallb (stdout_accepts w) (closing_texts w report) = true ->
         main w = ((t ++ tr ++ WriteFile (output_file w) report
                      :: success_output w report)%list, 0%Z))
        /\ (forallb (stdout_accepts w) (closing_texts w report) = false ->
            exists t' msg,
              try_body w g = (t', raise (UnicodeEncodeError msg)) /\
              In (WriteFile (output_file w) report) t' /\
              snd (main w) = 1%Z))
  /\ (snd (main w) = 0%Z <-> exists t', try_body w g = (t', ret tt)).
Proof.
  intros K G.
  pose proof (main_with_generator w g t K G) as M.
  split; [|split; [|split; [|split; [|split]]]].
  - intros t' e H. rewrite H in M. unfold raise in M. cbv beta iota in M.
    split; [rewrite M; reflexivity|].
    split; [|split].
    + intros A. rewrite M, (print_accepted w _ A). reflexivity.
    + intros A. rewrite M.
      destruct (print_cases w ("Error generating report: " ++ exn_message e))
        as [[A' _] | (msg & _ & P)]; [rewrite A in A'; discriminate A'|].
      rewrite P. cbn [fst]. rewrite app_nil_r. reflexivity.
    + intros text m I. apply in_app_or in I. destruct I as [I | I].
      * rewrite (init_events _ _ _ _ G) in I. destruct I as [D | []]. discriminate D.
      * assert (I' : In (Print text) (fst (try_body w g))) by (rewrite H; exact I).
        destruct (try_body_prints w g text I') as (tr & report & R & C).
        destruct (report_starts_with_hash _ _ _ _ _ R) as [rest E].
        exact (closing_texts_not_handler w report rest text m E C).
  - intros e L. rewrite try_body_stages, generate_report_stages, L. reflexivity.
  - intros doc ki status prompt e L X D P C.
    rewrite try_body_stages, generate_report_stages, L.
    unfold ret at 1. cbv beta iota.
    unfold prepare. rewrite X, bind_ret_l, D, bind_ret_l, P, bind_ret_l.
    unfold ret at 1. cbv beta iota. rewrite C. reflexivity.
  - intros tr report e R W. rewrite (try_body_after_report _ _ _ _ R), W. reflexivity.
  - intros tr report R W.
    pose proof (try_body_after_report _ _ _ _ R) as T. rewrite W in T.
    unfold ret in T. cbv beta iota in T.
    destruct (print_lines_cases w (closing_texts w report))
      as [[F L] | (written & x & later & msg & E & F & L)];
      rewrite L in T; cbn [fst snd] in T; rewrite F.
    + split; [|intros D; discriminate D]. intros _.
      rewrite M, T, success_output_texts. reflexivity.
    + split; [intros D; discriminate D|]. intros _.
      eexists. exists msg. split; [exact T|]. split.
      * apply in_or_app. right. left. reflexivity.
      * rewrite M, T. reflexivity.
  - split.
    + intros Z0. rewrite M in Z0.
      destruct (try_body w g) as [t' [e | []]]; [discriminate Z0|].
      exists t'. reflexivity.
    + intros [t' T]. rewrite M, T. reflexivity.
Qed.

Lemma top_level_handler_witness :
  let w := sample_world (Some "secret") (raise (LibraryError "No such file")) in
  let w' := sample_world (Some "secret") (ret sample_doc) in
  main w = ([ NewClient "2025-01-01-preview"
                "https://ltts-cariad-ddd-mvp-ai-foundry.cognitiveservices.azure.com"
                (PStr "secret");
              LoadYaml input_file;
              Print "Error generating report: No such file" ], 1%Z)
  /\ snd (main w') = 0%Z.
Proof.
  intros w w'. split.
  - pose (t := [NewClient (api_version (main_config w)) (endpoint (main_config w))
                  (api_key (main_config w))]).
    destruct (top_level_handler w sample_generator t eq_refl eq_refl)
      as (Caught & Load & _).
    destruct (Caught _ _ (Load _ eq_refl)) as (_ & Printed & _).
    exact (Printed eq_refl).
  - pose (t := [NewClient (api_version (main_config w')) (endpoint (main_config w'))
                  (api_key (main_config w'))]).
    destruct (top_level_handler w' sample_generator t eq_refl eq_refl)
      as (_ & _ & _ & _ & Done & _).
    destruct (generate_report w' sample_generator input_file) as [tr [e | report]] eqn:R;
      [vm_compute in R; discriminate R|].
    destruct (Done tr report eq_refl eq_refl) as [Good _].
    assert (A : forallb (stdout_accepts w') (closing_texts w' report) = true).
    { unfold closing_texts, stdout_accepts. cbn [forallb stdout_rejects w' sample_world].
      rewrite !orb_true_r. reflexivity. }
    rewrite (Good A). reflexivity.
Defined.

(** A report that is generated and saved does not by itself give exit
    status 0: here both steps end without an exception, standard output
    cannot encode the preview, and the run ends with exit status 1. *)
Lemma saved_report_can_exit_1 :
  let w := ascii_stdout_world (ret sample_doc) in
  exists tr report t',
    generate_report w sample_generator input_file = (tr, ret report) /\
    save_report w report (output_file w) = (t', ret tt) /\
    In (WriteFile (output_file w) report) (fst (main w)) /\
    snd (main w) = 1%Z /\
    snd (main w) <> 0%Z.
Proof.
  intros w.
  destruct (generate_report w sample_generator input_file) as [tr [e | report]] eqn:R;
    [vm_compute in R; discriminate R|].
  destruct (save_report w report (output_file w)) as [t' [e | []]] eqn:S.
  - exfalso. unfold save_report in S. rewrite io_bind_perform in S.
    cbn [write_text w] in S. vm_compute in S. discriminate S.
  - exists tr, report, t'. split; [reflexivity|]. split; [exact S|].
    assert (Z1 : snd (main w) = 1%Z) by (vm_compute; reflexivity).
    split; [|split; [exact Z1 | rewrite Z1; discriminate]].
    revert R. vm_compute. intros R. injection R as <- <-.
    right. right. right. left. reflexivity.
Defined.

(** * Placeholders in the prompt *)










